(** * AI Waste Sorter: the classification service and the App component

    A shallow embedding of [services/geminiService.ts] (the function
    [classifyWasteImage]), of [types.ts] (the enum [WasteCategory]) and of
    the state handling of [App.tsx] ([handleFileChange], [handleClassify],
    [handleRemoveImage] and the conditions under which the component
    renders its parts).

    JavaScript strings are sequences of UTF-16 code units.  What the host
    runtime supplies and the repository does not define is taken as a
    parameter: [String.prototype.toLowerCase] (its tables depend on the
    Unicode version of the engine) and the text of the [TypeError]s the
    engine raises.  The vendor SDK call and the [FileReader] are effects,
    answered by an environment. *)

From Stdlib Require Import List NArith Bool String Ascii Lia PeanoNat.
Import ListNotations.

Set Implicit Arguments.

(** ** JavaScript strings *)

Module JS.

Definition jsstring : Type := list N.

(** A string literal of the source, as code units. *)
Definition js (s : string) : jsstring :=
  map N_of_ascii (list_ascii_of_string s).
Arguments js : simpl never.

Fixpoint str_eqb (s t : jsstring) : bool :=
  match s, t with
  | [], [] => true
  | c :: s', d :: t' => N.eqb c d && str_eqb s' t'
  | _, _ => false
  end.

(** [WhiteSpace] and [LineTerminator] of ECMAScript: what [trim] strips. *)
Definition isWhiteSpace (c : N) : bool :=
  ((9 <=? c) && (c <=? 13) || (c =? 32) || (c =? 160) || (c =? 5760)
   || ((8192 <=? c) && (c <=? 8202)) || (c =? 8232) || (c =? 8233)
   || (c =? 8239) || (c =? 8287) || (c =? 12288) || (c =? 65279))%N.

Fixpoint trimStart (s : jsstring) : jsstring :=
  match s with
  | c :: s' => if isWhiteSpace c then trimStart s' else s
  | [] => []
  end.

Definition trimEnd (s : jsstring) : jsstring := rev (trimStart (rev s)).

(** [String.prototype.trim] *)
Definition trim (s : jsstring) : jsstring := trimEnd (trimStart s).

(** [String.prototype.startsWith] *)
Fixpoint startsWith (s p : jsstring) {struct p} : bool :=
  match p, s with
  | [], _ => true
  | d :: p', c :: s' => N.eqb c d && startsWith s' p'
  | _ :: _, [] => false
  end.

(** [String.prototype.includes]: [t] occurs in [s] at some position. *)
Fixpoint includes (s t : jsstring) : bool :=
  startsWith s t ||
  match s with
  | [] => false
  | _ :: s' => includes s' t
  end.

(** [Array.prototype.includes] on an array of strings (SameValueZero on
    strings is equality of the code unit sequences). *)
Definition array_includes (l : list jsstring) (x : jsstring) : bool :=
  existsb (str_eqb x) l.

(** ToBoolean of a value that is a string, [null] or [undefined]. *)
Definition truthy (v : option jsstring) : bool :=
  match v with
  | Some (_ :: _) => true
  | _ => false
  end.

Definition comma : N := 44.

Fixpoint upToComma (s : jsstring) : jsstring :=
  match s with
  | [] => []
  | c :: s' => if N.eqb c comma then [] else c :: upToComma s'
  end.

Fixpoint afterComma (s : jsstring) : option jsstring :=
  match s with
  | [] => None
  | c :: s' => if N.eqb c comma then Some s' else afterComma s'
  end.

(** [s.split(',')[1]]: the second comma-separated piece, [undefined] when
    [s] has no comma. *)
Definition split_comma_1 (s : jsstring) : option jsstring :=
  option_map upToComma (afterComma s).

(** An instance of the runtime's lower-casing on the ASCII letters, used
    to run the model on concrete texts. *)
Definition asciiToLowerCase (s : jsstring) : jsstring :=
  map (fun c => if ((65 <=? c) && (c <=? 90))%N then (c + 32)%N else c) s.

End JS.

Import JS.

(** ** Effects: the vendor SDK call, the FileReader, the console *)

Module Effects.

(** The sites at which the code can make the engine raise a [TypeError];
    the text of the message is the engine's. *)
Inductive TypeErrorSite : Type :=
| TrimOfUndefined        (* [response.text.trim()] with [text] undefined *)
| IncludesNotCallable.   (* [err.message.includes(...)] on a non-string *)

(** The host runtime. *)
Record Host : Type := {
  toLowerCase : jsstring -> jsstring;
  typeErrorMessage : TypeErrorSite -> jsstring
}.

(** What the [message] of a thrown object can be, as far as the code looks
    at it: a string, or a value on which [.includes] cannot be called (a
    number, a boolean, [undefined], [null], a plain object).  Values that
    bring an [includes] method of their own are not modelled. *)
Inductive MessageValue : Type :=
| MsgString (s : jsstring)
| MsgNoIncludes.

(** Thrown values, by what [catch] blocks of the repository test:
    [error instanceof Error] (an [Error] always has a [message], at least
    through its prototype), another object with or without a [message]
    property, or a value that is not an object (a primitive, [null]). *)
Inductive Thrown : Type :=
| ThrownError (message : MessageValue)
| ThrownObject (message : option MessageValue)
| ThrownOther.

(** How a promise settles. *)
Inductive Settled (A : Type) : Type :=
| Fulfilled (a : A)
| Rejected (e : Thrown).
Arguments Rejected {A} e.

Record File : Type := {
  file_name : jsstring;
  file_type : jsstring
}.

(** The argument of [ai.models.generateContent]: the model name and the two
    parts of the only content. *)
Record Request : Type := {
  req_model : jsstring;
  req_mimeType : jsstring;
  req_data : option jsstring;
  req_text : jsstring
}.

(** [FileReader.readAsDataURL]: [onload] with the data URL, or [onerror]. *)
Inductive ReadOutcome : Type :=
| ReadLoaded (result : jsstring)
| ReadFailed.

(** [generateContent]: a response whose [text] may be undefined, or a throw. *)
Inductive VendorOutcome : Type :=
| VendorResponse (text : option jsstring)
| VendorThrows (e : Thrown).

Inductive Event : Type :=
| EvReadAsDataURL (f : File)
| EvGenerateContent (r : Request)
| EvConsoleWarn (msg : jsstring)
| EvConsoleError (msg : jsstring).

(** Programs over these effects. *)
Inductive Prog (A : Type) : Type :=
| Ret (a : A)
| ReadAsDataURL (f : File) (k : ReadOutcome -> Prog A)
| GenerateContent (r : Request) (k : VendorOutcome -> Prog A)
| ConsoleWarn (msg : jsstring) (k : Prog A)
| ConsoleError (msg : jsstring) (k : Prog A).
Arguments Ret {A} a.
Arguments ReadAsDataURL {A} f k.
Arguments GenerateContent {A} r k.
Arguments ConsoleWarn {A} msg k.
Arguments ConsoleError {A} msg k.

Fixpoint bind {A B : Type} (p : Prog A) (q : A -> Prog B) : Prog B :=
  match p with
  | Ret a => q a
  | ReadAsDataURL f k => ReadAsDataURL f (fun o => bind (k o) q)
  | GenerateContent r k => GenerateContent r (fun o => bind (k o) q)
  | ConsoleWarn m k => ConsoleWarn m (bind k q)
  | ConsoleError m k => ConsoleError m (bind k q)
  end.

(** The world outside: it answers each effect, possibly depending on
    everything that happened before. *)
Record Env : Type := {
  env_read : list Event -> File -> ReadOutcome;
  env_vendor : list Event -> Request -> VendorOutcome
}.

(** Running a program from the history [h]: the value and the history
    extended by the events of the run. *)
Fixpoint run {A : Type} (env : Env) (p : Prog A) (h : list Event)
  : A * list Event :=
  match p with
  | Ret a => (a, h)
  | ReadAsDataURL f k =>
      run env (k (env_read env h f)) (h ++ [EvReadAsDataURL f])
  | GenerateContent r k =>
      run env (k (env_vendor env h r)) (h ++ [EvGenerateContent r])
  | ConsoleWarn m k => run env k (h ++ [EvConsoleWarn m])
  | ConsoleError m k => run env k (h ++ [EvConsoleError m])
  end.

(** The events of a run, without the history it started from. *)
Fixpoint trace {A : Type} (env : Env) (p : Prog A) (h : list Event)
  : list Event :=
  match p with
  | Ret _ => []
  | ReadAsDataURL f k =>
      EvReadAsDataURL f :: trace env (k (env_read env h f)) (h ++ [EvReadAsDataURL f])
  | GenerateContent r k =>
      EvGenerateContent r :: trace env (k (env_vendor env h r)) (h ++ [EvGenerateContent r])
  | ConsoleWarn m k => EvConsoleWarn m :: trace env k (h ++ [EvConsoleWarn m])
  | ConsoleError m k => EvConsoleError m :: trace env k (h ++ [EvConsoleError m])
  end.

Definition isRead (e : Event) : bool :=
  match e with EvReadAsDataURL _ => true | _ => false end.

Definition isVendorCall (e : Event) : bool :=
  match e with EvGenerateContent _ => true | _ => false end.

Definition fileReads (h : list Event) : nat := List.length (filter isRead h).
Definition vendorCalls (h : list Event) : nat := List.length (filter isVendorCall h).

(** An environment that gives the same two answers whenever asked. *)
Definition constEnv (rd : ReadOutcome) (v : VendorOutcome) : Env :=
  {| env_read := fun _ _ => rd; env_vendor := fun _ _ => v |}.

End Effects.

Import Effects.

Declare Scope prog_scope.
Delimit Scope prog_scope with prog.
Notation "x <- p ;; q" := (bind p (fun x => q))
  (at level 61, p at next level, right associativity) : prog_scope.

(** ** types.ts *)

Module Types.

Inductive WasteCategory : Type :=
| PLASTIC | PAPER | CARDBOARD | GLASS | METAL | UNKNOWN.

(** The string each member of the enum stands for at run time. *)
Definition value (c : WasteCategory) : jsstring :=
  match c with
  | PLASTIC => js "Plastic"
  | PAPER => js "Paper"
  | CARDBOARD => js "Cardboard"
  | GLASS => js "Glass"
  | METAL => js "Metal"
  | UNKNOWN => js "Unknown"
  end.

(** [Object.values(WasteCategory)], in declaration order. *)
Definition Object_values_WasteCategory : list jsstring :=
  map value [PLASTIC; PAPER; CARDBOARD; GLASS; METAL; UNKNOWN].

End Types.

Import Types.

(** ** services/geminiService.ts *)

Module GeminiService.

Definition WASTE_CLASSIFICATION_PROMPT : jsstring :=
  js "You are an expert waste sorting AI. Analyze the image provided, identify the most prominent item of waste, and classify it into one of the following categories:
- Plastic
- Paper
- Cardboard
- Glass
- Metal
Respond with *only* the category name. If the image is unclear, does not show a clear item of waste, or the item cannot be reasonably classified into these categories, respond with 'Unknown'.".

(** The resolved value [{ category; error? }].  At run time [category] is a
    string: on the exact-match path it is the response text itself. *)
Record ClassifyResult : Type := {
  category : jsstring;
  error : option jsstring
}.

Definition request (imageBase64 : option jsstring) (mimeType : jsstring)
  : Request :=
  {| req_model := js "gemini-2.5-flash-preview-04-17";
     req_mimeType := mimeType;
     req_data := imageBase64;
     req_text := WASTE_CLASSIFICATION_PROMPT |}.

Section Service.

Variable host : Host.

(** Lines 43-57: what is done with the text of a response. *)
Definition classifyText (text : jsstring) : Prog ClassifyResult :=
  let classificationText := trim text in
  if array_includes Object_values_WasteCategory classificationText then
    Ret {| category := classificationText; error := None |}
  else
    ConsoleWarn (js "Unexpected classification from API: " ++ classificationText)
      (let lowerCaseText := toLowerCase host classificationText in
       if includes lowerCaseText (js "plastic") then
         Ret {| category := value PLASTIC; error := None |}
       else if includes lowerCaseText (js "paper") then
         Ret {| category := value PAPER; error := None |}
       else if includes lowerCaseText (js "cardboard") then
         Ret {| category := value CARDBOARD; error := None |}
       else if includes lowerCaseText (js "glass") then
         Ret {| category := value GLASS; error := None |}
       else if includes lowerCaseText (js "metal") then
         Ret {| category := value METAL; error := None |}
       else
         Ret {| category := value UNKNOWN;
                error := Some (js "Unexpected category: " ++ classificationText) |}).

(** Lines 64-69: the test for an invalid key, on a [message] that is a
    string; [errorMessage] is the message chosen so far. *)
Definition invalidKeyCheck (message errorMessage : jsstring) : jsstring :=
  if includes message (js "API key not valid")
  then js "Invalid API Key. Please check your configuration."
  else errorMessage.

Definition failed (errorMessage : jsstring) : Settled ClassifyResult :=
  Fulfilled {| category := value UNKNOWN; error := Some errorMessage |}.

(** Lines 58-71: the [catch] block.  A [message] that is not a string makes
    [err.message.includes] raise inside the block, and nothing catches
    that: the promise of [classifyWasteImage] is rejected. *)
Definition classifyCatch (error : Thrown) : Prog (Settled ClassifyResult) :=
  ConsoleError (js "Error classifying waste image:")
    (let errorMessage := js "Failed to classify image due to an API error." in
     match error with
     | ThrownError (MsgString message) =>
         Ret (failed (invalidKeyCheck message message))
     | ThrownObject (Some (MsgString message)) =>
         Ret (failed (invalidKeyCheck message errorMessage))
     | ThrownError MsgNoIncludes | ThrownObject (Some MsgNoIncludes) =>
         Ret (Rejected
                (ThrownError (MsgString (typeErrorMessage host IncludesNotCallable))))
     | ThrownObject None | ThrownOther =>
         Ret (failed errorMessage)
     end).

(** [classifyWasteImage], with the module constant [API_KEY] (the value of
    [process.env.API_KEY], possibly undefined) as its first argument. *)
Definition classifyWasteImage (API_KEY : option jsstring)
    (imageBase64 : option jsstring) (mimeType : jsstring)
  : Prog (Settled ClassifyResult) :=
  if negb (truthy API_KEY) then
    Ret (Fulfilled {| category := value UNKNOWN;
                      error := Some (js "API Key not configured.") |})
  else
    GenerateContent (request imageBase64 mimeType) (fun response =>
      match response with
      | VendorResponse (Some text) =>
          bind (classifyText text) (fun r => Ret (Fulfilled r))
      | VendorResponse None =>
          classifyCatch
            (ThrownError (MsgString (typeErrorMessage host TrimOfUndefined)))
      | VendorThrows e => classifyCatch e
      end).

End Service.

(** The normalisation as the specification words it: an exact match of
    the trimmed text against the known labels first, and only then the
    keywords, tried in their fixed order, the first one found winning. *)
Definition keywords : list (jsstring * WasteCategory) :=
  [ (js "plastic", PLASTIC); (js "paper", PAPER); (js "cardboard", CARDBOARD);
    (js "glass", GLASS); (js "metal", METAL) ].

Definition normalize_spec (host : Host) (text : jsstring) : ClassifyResult :=
  let t := trim text in
  match find (str_eqb t) Object_values_WasteCategory with
  | Some label => {| category := label; error := None |}
  | None =>
      match find (fun kw => includes (toLowerCase host t) (fst kw)) keywords with
      | Some kw => {| category := value (snd kw); error := None |}
      | None => {| category := value UNKNOWN;
                   error := Some (js "Unexpected category: " ++ t) |}
      end
  end.

End GeminiService.

Import GeminiService.

(** ** App.tsx *)

Module App.

(** [imageToBase64]: the part of the data URL after the first comma; the
    promise is rejected with the event of [onerror] (an object without a
    [message]). *)
Definition imageToBase64 (file : File) : Prog (Settled (option jsstring)) :=
  ReadAsDataURL file (fun o =>
    match o with
    | ReadLoaded result => Ret (Fulfilled (split_comma_1 result))
    | ReadFailed => Ret (Rejected (ThrownObject None))
    end).

(** The six [useState] cells of the component. *)
Record AppState : Type := {
  selectedFile : option File;
  imageBase64Preview : option jsstring;
  mimeType : option jsstring;
  classificationResult : option jsstring;
  isLoading : bool;
  error : option jsstring
}.

Definition initialState : AppState :=
  {| selectedFile := None; imageBase64Preview := None; mimeType := None;
     classificationResult := None; isLoading := false; error := None |}.

Definition setSelectedFile (v : option File) (st : AppState) : AppState :=
  {| selectedFile := v; imageBase64Preview := imageBase64Preview st;
     mimeType := mimeType st; classificationResult := classificationResult st;
     isLoading := isLoading st; error := error st |}.

Definition setImageBase64Preview (v : option jsstring) (st : AppState) : AppState :=
  {| selectedFile := selectedFile st; imageBase64Preview := v;
     mimeType := mimeType st; classificationResult := classificationResult st;
     isLoading := isLoading st; error := error st |}.

Definition setMimeType (v : option jsstring) (st : AppState) : AppState :=
  {| selectedFile := selectedFile st; imageBase64Preview := imageBase64Preview st;
     mimeType := v; classificationResult := classificationResult st;
     isLoading := isLoading st; error := error st |}.

Definition setClassificationResult (v : option jsstring) (st : AppState) : AppState :=
  {| selectedFile := selectedFile st; imageBase64Preview := imageBase64Preview st;
     mimeType := mimeType st; classificationResult := v;
     isLoading := isLoading st; error := error st |}.

Definition setIsLoading (v : bool) (st : AppState) : AppState :=
  {| selectedFile := selectedFile st; imageBase64Preview := imageBase64Preview st;
     mimeType := mimeType st; classificationResult := classificationResult st;
     isLoading := v; error := error st |}.

Definition setError (v : option jsstring) (st : AppState) : AppState :=
  {| selectedFile := selectedFile st; imageBase64Preview := imageBase64Preview st;
     mimeType := mimeType st; classificationResult := classificationResult st;
     isLoading := isLoading st; error := v |}.

(** A handler is a sequence of setter calls, written in source order. *)
Definition then_ (f g : AppState -> AppState) : AppState -> AppState :=
  fun st => g (f st).
Infix ";;;" := then_ (at level 62, left associativity).

Definition isImage (file : File) : bool :=
  startsWith (file_type file) (js "image/").

(** [handleFileChange], called with [event.target.files?.[0]].  The second
    component is the file a preview [FileReader] has been started on. *)
Definition handleFileChange (file : option File) (st : AppState)
  : AppState * option File :=
  let st := (setError None ;;; setClassificationResult None) st in
  match file with
  | Some file =>
      if negb (isImage file) then
        ((setError (Some (js "Please upload a valid image file (PNG, JPG, GIF, WEBP, etc.)."))
          ;;; setSelectedFile None
          ;;; setImageBase64Preview None
          ;;; setMimeType None) st, None)
      else
        ((setSelectedFile (Some file) ;;; setMimeType (Some (file_type file))) st,
         Some file)
  | None =>
      ((setSelectedFile None ;;; setImageBase64Preview None ;;; setMimeType None) st,
       None)
  end.

(** [reader.onloadend] of the preview reader: [reader.result] is the data
    URL, or [null] when the read failed. *)
Definition previewLoadEnd (o : ReadOutcome) : AppState -> AppState :=
  setImageBase64Preview
    (match o with ReadLoaded result => Some result | ReadFailed => None end).

Definition handleRemoveImage : AppState -> AppState :=
  setSelectedFile None ;;; setImageBase64Preview None ;;; setMimeType None
  ;;; setClassificationResult None ;;; setError None.

Section Component.

Variable host : Host.
Variable API_KEY : option jsstring.

(** The [catch] and [finally] of [handleClassify]. *)
Definition classifyFailed : Prog (AppState -> AppState) :=
  ConsoleError (js "Classification process error:")
    (Ret (setError (Some (js "An unexpected error occurred during classification."))
          ;;; setClassificationResult (Some (value UNKNOWN))
          ;;; setIsLoading false)).

(** [handleClassify] from its first [await] on, for the file and the MIME
    type its closure holds.  The state updates it ends with are applied to
    the state of the component at that time. *)
Definition handleClassifyAsync (selectedFile : File) (mimeType : jsstring)
  : Prog (AppState -> AppState) :=
  (r1 <- imageToBase64 selectedFile ;;
   match r1 with
   | Rejected _ => classifyFailed
   | Fulfilled base64Data =>
       r2 <- classifyWasteImage host API_KEY base64Data mimeType ;;
       match r2 with
       | Rejected _ => classifyFailed
       | Fulfilled result =>
           if truthy (GeminiService.error result) then
             Ret (setError (GeminiService.error result)
                  ;;; setClassificationResult (Some (value UNKNOWN))
                  ;;; setIsLoading false)
           else
             Ret (setClassificationResult (Some (category result))
                  ;;; setIsLoading false)
       end
   end)%prog.

(** [handleClassify]: the state after its synchronous part, and the
    asynchronous rest when the guard lets it start. *)
Definition handleClassify (st : AppState)
  : AppState * option (Prog (AppState -> AppState)) :=
  match selectedFile st, mimeType st with
  | Some file, Some (c :: m) =>
      ((setIsLoading true ;;; setError None ;;; setClassificationResult None) st,
       Some (handleClassifyAsync file (c :: m)))
  | _, _ =>
      (setError (Some (js "Please select an image file first.")) st, None)
  end.

(** The three ways [handleClassify] can end: through its own [catch], with
    the error of the service, or with a category. *)
Inductive Ending : (AppState -> AppState) -> Prop :=
| EndedUnexpected :
    Ending (setError (Some (js "An unexpected error occurred during classification."))
            ;;; setClassificationResult (Some (value UNKNOWN))
            ;;; setIsLoading false)
| EndedWithError (e : jsstring) :
    truthy (Some e) = true ->
    Ending (setError (Some e)
            ;;; setClassificationResult (Some (value UNKNOWN))
            ;;; setIsLoading false)
| EndedWithCategory (c : jsstring) :
    In c Object_values_WasteCategory ->
    Ending (setClassificationResult (Some c) ;;; setIsLoading false).

(** What the component renders of its state. *)
Record View : Type := {
  previewShown : option jsstring;
  classifyButtonShown : bool;
  spinnerShown : bool;
  errorShown : option jsstring;
  resultCardShown : option jsstring;
  apiKeyWarningShown : bool
}.

Definition isSome {A : Type} (o : option A) : bool :=
  match o with Some _ => true | None => false end.

Definition render (st : AppState) : View :=
  {| previewShown :=
       if truthy (imageBase64Preview st) then imageBase64Preview st else None;
     classifyButtonShown := isSome (selectedFile st) && negb (isLoading st);
     spinnerShown := isLoading st;
     errorShown := if truthy (error st) then error st else None;
     resultCardShown :=
       if truthy (classificationResult st) && negb (isLoading st)
          && negb (truthy (error st))
       then classificationResult st else None;
     apiKeyWarningShown := negb (truthy API_KEY) |}.

(** *** The component with its pending asynchronous work *)

(** [handleClassify] as the page runs it: the handler is the closure of
    the last render, so its guard and the file and MIME type it passes on
    are those of [closure], the state that render was made from, while its
    setters act on [st], the state as it is when the click is handled.
    [handleClassify st] is the case where the two agree. *)
Definition handleClassifyFrom (closure st : AppState)
  : AppState * option (Prog (AppState -> AppState)) :=
  match selectedFile closure, mimeType closure with
  | Some file, Some (c :: m) =>
      ((setIsLoading true ;;; setError None ;;; setClassificationResult None) st,
       Some (handleClassifyAsync file (c :: m)))
  | _, _ =>
      (setError (Some (js "Please select an image file first.")) st, None)
  end.

(** [ui] is the state the setters have produced so far; [shown] is the
    state the last committed render was made from: it decides what is on
    the page and what the closures of the handlers hold.  [inflight] holds
    the calls of [handleClassify] that have started and not yet settled,
    each as the rest of its program; [readers] holds the files of the
    preview readers that have not yet reached [loadend]. *)
Record Sys : Type := {
  ui : AppState;
  shown : AppState;
  inflight : list (Prog (AppState -> AppState));
  readers : list File
}.

Definition initialSys : Sys :=
  {| ui := initialState; shown := initialState; inflight := []; readers := [] |}.

(** What can happen next.  The user can only use what is on the page, that
    is what the last committed render shows; the environment settles
    pending work in any order, with any outcome; React commits a new
    render at some later point ([Render]), not within the handler whose
    setters asked for it. *)
Inductive Action : Type :=
| FileChange (file : option File)
| ClickClassify
| ClickRemoveImage
| PreviewLoadEnd (i : nat) (o : ReadOutcome)
| ClassifySettles (i : nat) (rd : ReadOutcome) (v : VendorOutcome)
| Render.

Fixpoint remove_nth {A : Type} (i : nat) (l : list A) : list A :=
  match l, i with
  | [], _ => []
  | _ :: l', O => l'
  | x :: l', S i' => x :: remove_nth i' l'
  end.

Definition step (s : Sys) (a : Action) : option Sys :=
  match a with
  | FileChange file =>
      let '(st, started) := handleFileChange file (ui s) in
      Some {| ui := st; shown := shown s; inflight := inflight s;
              readers := readers s ++
                         match started with Some f => [f] | None => [] end |}
  | ClickClassify =>
      if classifyButtonShown (render (shown s)) then
        let '(st, started) := handleClassifyFrom (shown s) (ui s) in
        Some {| ui := st; shown := shown s;
                inflight := inflight s ++
                            match started with Some p => [p] | None => [] end;
                readers := readers s |}
      else None
  | ClickRemoveImage =>
      if isSome (previewShown (render (shown s))) then
        Some {| ui := handleRemoveImage (ui s); shown := shown s;
                inflight := inflight s; readers := readers s |}
      else None
  | PreviewLoadEnd i o =>
      match nth_error (readers s) i with
      | Some _ =>
          Some {| ui := previewLoadEnd o (ui s); shown := shown s;
                  inflight := inflight s;
                  readers := remove_nth i (readers s) |}
      | None => None
      end
  | ClassifySettles i rd v =>
      match nth_error (inflight s) i with
      | Some p =>
          let update := fst (run (constEnv rd v) p []) in
          Some {| ui := update (ui s); shown := shown s;
                  inflight := remove_nth i (inflight s);
                  readers := readers s |}
      | None => None
      end
  | Render =>
      Some {| ui := ui s; shown := ui s; inflight := inflight s;
              readers := readers s |}
  end.

Fixpoint steps (s : Sys) (l : list Action) : option Sys :=
  match l with
  | [] => Some s
  | a :: l' =>
      match step s a with
      | Some s' => steps s' l'
      | None => None
      end
  end.

Definition reachable (s : Sys) : Prop :=
  exists l, steps initialSys l = Some s.

(** The runs in which React commits a render after every event, before
    the next one is handled. *)
Definition renderedAfterEach (l : list Action) : list Action :=
  flat_map (fun a => [a; Render]) l.

(** What holds of every state the component can be in. *)
Definition consistent (s : Sys) : Prop :=
  (isLoading (ui s) = true -> inflight s <> [])
  /\ (forall p, In p (inflight s) ->
         exists f m, p = handleClassifyAsync f m)
  /\ (forall f, selectedFile (ui s) = Some f ->
         isImage f = true /\ mimeType (ui s) = Some (file_type f)).

End Component.

End App.

(** ** Concrete data to run the model on *)

Module Sample.

Definition host : Host :=
  {| toLowerCase := asciiToLowerCase;
     typeErrorMessage := fun site =>
       match site with
       | TrimOfUndefined => js "Cannot read properties of undefined (reading 'trim')"
       | IncludesNotCallable => js "err.message.includes is not a function"
       end |}.

Definition key : option jsstring := Some (js "AIza-sample").

Definition photo : File :=
  {| file_name := js "bottle.png"; file_type := js "image/png" |}.

Definition notes : File :=
  {| file_name := js "notes.txt"; file_type := js "text/plain" |}.

Definition dataURL : jsstring := js "data:image/png;base64,iVBORw0KGgo=".

(** The vendor answers every call with this text. *)
Definition answering (text : string) : Env :=
  constEnv (ReadLoaded dataURL) (VendorResponse (Some (js text))).

(** The vendor call throws this value. *)
Definition throwing (e : Thrown) : Env :=
  constEnv (ReadLoaded dataURL) (VendorThrows e).

(** The state of the component after these actions, from its start. *)
Definition after (l : list App.Action) : App.Sys :=
  match App.steps host key App.initialSys l with
  | Some s => s
  | None => App.initialSys
  end.

End Sample.

(** ** The rest of the two files *)

Module Presentation.

Import App.

(** What [ResultCard] puts on the page: the three class names it chooses,
    the heading, and the note under it. *)
Record Card : Type := {
  bgColor : jsstring;
  textColor : jsstring;
  iconClass : jsstring;
  heading : jsstring;
  note : option jsstring
}.

(** [ResultCard]: the [switch] compares the category with the six members
    of the enum; a string that is none of them keeps the initial values. *)
Definition ResultCard (category : jsstring) : Card :=
  let '(bg, text, icon) :=
    if str_eqb category (value PLASTIC) then
      (js "bg-sky-100", js "text-sky-700", js "fa-prescription-bottle")
    else if str_eqb category (value PAPER) then
      (js "bg-stone-100", js "text-stone-700", js "fa-newspaper")
    else if str_eqb category (value CARDBOARD) then
      (js "bg-amber-100", js "text-amber-700", js "fa-box-open")
    else if str_eqb category (value GLASS) then
      (js "bg-cyan-100", js "text-cyan-700", js "fa-wine-glass")
    else if str_eqb category (value METAL) then
      (js "bg-slate-200", js "text-slate-700", js "fa-tools")
    else if str_eqb category (value UNKNOWN) then
      (js "bg-red-100", js "text-red-700", js "fa-question-circle")
    else
      (js "bg-gray-200", js "text-gray-800", js "fa-question-circle") in
  {| bgColor := bg; textColor := text; iconClass := icon;
     heading := category;
     note := if str_eqb category (value UNKNOWN)
             then Some (js "Could not confidently classify the item.")
             else None |}.

(** What the state cells hold in every state the component can be in:
    the MIME type is stored exactly with a file, a stored result is one of
    the six categories, a stored error is not the empty string. *)
Definition wellFormed (s : Sys) : Prop :=
  mimeType (ui s) = option_map file_type (selectedFile (ui s))
  /\ (forall c, classificationResult (ui s) = Some c ->
                In c Object_values_WasteCategory)
  /\ (forall e, error (ui s) = Some e -> truthy (Some e) = true).

End Presentation.

Import App.

(** * Facts about the runtime functions *)

Section JSFacts.

Lemma str_eqb_eq (s t : jsstring) : str_eqb s t = true <-> s = t.
Proof.
  revert t; induction s as [|c s IH]; intros [|d t]; simpl;
    try (split; [discriminate | congruence]); try tauto.
  rewrite andb_true_iff, N.eqb_eq, IH.
  split; [intros [-> ->]; reflexivity | intros H; inversion H; auto].
Qed.

Lemma str_eqb_refl (s : jsstring) : str_eqb s s = true.
Proof. apply str_eqb_eq; reflexivity. Qed.

Lemma array_includes_In (l : list jsstring) (x : jsstring) :
  array_includes l x = true <-> In x l.
Proof.
  unfold array_includes. rewrite existsb_exists. split.
  - intros (y & Hy & E). apply str_eqb_eq in E. subst; assumption.
  - intros H. exists x. split; [assumption | apply str_eqb_refl].
Qed.

Lemma startsWith_app (s p : jsstring) :
  startsWith s p = true <-> exists post, s = p ++ post.
Proof.
  revert s; induction p as [|d p IH]; intros s; simpl.
  - split; [intros _; exists s; reflexivity | reflexivity].
  - destruct s as [|c s].
    + split; [discriminate | intros (post & H); discriminate].
    + rewrite andb_true_iff, N.eqb_eq, IH. split.
      * intros (-> & post & ->). exists post; reflexivity.
      * intros (post & H). inversion H; subst. split; [reflexivity | eauto].
Qed.

(** [includes] decides occurrence as a contiguous substring. *)
Lemma includes_substring (s t : jsstring) :
  includes s t = true <-> exists pre post, s = pre ++ t ++ post.
Proof.
  induction s as [|c s IH]; simpl.
  - rewrite orb_false_r, startsWith_app. split.
    + intros (post & H). exists [], post. exact H.
    + intros (pre & post & H). destruct pre; [|discriminate].
      exists post. exact H.
  - rewrite orb_true_iff, startsWith_app, IH. split.
    + intros [(post & H) | (pre & post & H)].
      * exists [], post. exact H.
      * exists (c :: pre), post. simpl. rewrite H. reflexivity.
    + intros (pre & post & H). destruct pre as [|c' pre].
      * left. exists post. exact H.
      * right. inversion H; subst. exists pre, post. reflexivity.
Qed.

Lemma trimStart_no_leading_space (s : jsstring) :
  match trimStart s with
  | c :: _ => isWhiteSpace c = false
  | [] => True
  end.
Proof.
  induction s as [|c s IH]; simpl; [exact I|].
  destruct (isWhiteSpace c) eqn:E; [exact IH | exact E].
Qed.

Lemma trimStart_suffix (s : jsstring) :
  exists ws, s = ws ++ trimStart s /\ forallb isWhiteSpace ws = true.
Proof.
  induction s as [|c s (ws & E & W)]; simpl.
  - exists []. split; reflexivity.
  - destruct (isWhiteSpace c) eqn:Hc.
    + exists (c :: ws). simpl. rewrite Hc, W. split; [f_equal; exact E | reflexivity].
    + exists []. split; reflexivity.
Qed.

(** [trim] removes a run of white space at each end and nothing else. *)
Lemma trim_decompose (s : jsstring) :
  exists l r, s = l ++ trim s ++ r
              /\ forallb isWhiteSpace l = true
              /\ forallb isWhiteSpace r = true.
Proof.
  destruct (trimStart_suffix s) as (l & El & Wl).
  destruct (trimStart_suffix (rev (trimStart s))) as (r & Er & Wr).
  exists l, (rev r). unfold trim, trimEnd. repeat split.
  - rewrite <- rev_app_distr, <- Er, rev_involutive. exact El.
  - exact Wl.
  - rewrite forallb_forall in *. intros x Hx. apply Wr, in_rev. exact Hx.
Qed.

Lemma find_str_eqb (l : list jsstring) (t : jsstring) :
  find (str_eqb t) l = if array_includes l t then Some t else None.
Proof.
  unfold array_includes. induction l as [|x l IH]; simpl; [reflexivity|].
  destruct (str_eqb t x) eqn:E; simpl; [|exact IH].
  apply str_eqb_eq in E. subst. reflexivity.
Qed.

Lemma startsWith_nonempty (s p : jsstring) :
  startsWith s p = true -> p <> [] -> truthy (Some s) = true.
Proof.
  destruct p as [|d p]; [congruence|]. destruct s; simpl; [discriminate | reflexivity].
Qed.

End JSFacts.

(** * Facts about running programs *)

Section RunFacts.

Context {A B : Type} (env : Env).

Lemma run_bind (p : Prog A) (q : A -> Prog B) (h : list Event) :
  run env (bind p q) h = run env (q (fst (run env p h))) (snd (run env p h)).
Proof.
  revert h; induction p as [a | f k IH | r k IH | m k IH | m k IH];
    intros h; simpl; auto.
Qed.

Lemma run_trace (p : Prog A) (h : list Event) :
  snd (run env p h) = h ++ trace env p h.
Proof.
  revert h; induction p as [a | f k IH | r k IH | m k IH | m k IH];
    intros h; simpl.
  - symmetry; apply app_nil_r.
  - rewrite IH, <- app_assoc; reflexivity.
  - rewrite IH, <- app_assoc; reflexivity.
  - rewrite IH, <- app_assoc; reflexivity.
  - rewrite IH, <- app_assoc; reflexivity.
Qed.

Lemma trace_bind (p : Prog A) (q : A -> Prog B) (h : list Event) :
  trace env (bind p q) h
  = trace env p h ++ trace env (q (fst (run env p h))) (snd (run env p h)).
Proof.
  revert h; induction p as [a | f k IH | r k IH | m k IH | m k IH];
    intros h; simpl; try rewrite IH; reflexivity.
Qed.

End RunFacts.

(** * The classification service *)

(** Walks down the cascade of keyword tests, one test at a time. *)
Ltac case_includes :=
  repeat (match goal with
          | |- context [includes ?s ?k] => destruct (includes s k)
          end; cbn [fst snd]; try reflexivity).

Section ServiceFacts.

Variable host : Host.

Lemma classifyText_run (env : Env) (text : jsstring) (h : list Event) :
  fst (run env (classifyText host text) h) = normalize_spec host text.
Proof.
  unfold classifyText, normalize_spec. rewrite find_str_eqb.
  destruct (array_includes _ _); [reflexivity|].
  cbn [run fst find keywords]. case_includes.
Qed.

Lemma classifyText_trace (env : Env) (text : jsstring) (h : list Event) :
  trace env (classifyText host text) h
  = if array_includes Object_values_WasteCategory (trim text) then []
    else [EvConsoleWarn (js "Unexpected classification from API: " ++ trim text)].
Proof.
  unfold classifyText.
  destruct (array_includes _ _); [reflexivity|].
  cbn [trace]. case_includes.
Qed.

(** The [catch] block asks nothing of the environment. *)
Lemma classifyCatch_run (env1 env2 : Env) (e : Thrown) (h1 h2 : list Event) :
  fst (run env1 (classifyCatch host e) h1) = fst (run env2 (classifyCatch host e) h2)
  /\ trace env1 (classifyCatch host e) h1 = trace env2 (classifyCatch host e) h2.
Proof.
  destruct e as [[s|] | [[s|]|] | ]; split; reflexivity.
Qed.

Lemma normalize_spec_cases (text : jsstring) :
  In (category (normalize_spec host text)) Object_values_WasteCategory
  /\ (GeminiService.error (normalize_spec host text) <> None ->
      category (normalize_spec host text) = value UNKNOWN).
Proof.
  unfold normalize_spec. rewrite find_str_eqb.
  destruct (array_includes _ _) eqn:E.
  - apply array_includes_In in E. split; [exact E | simpl; congruence].
  - destruct (find _ keywords) as [[k c]|] eqn:F; cbn [category GeminiService.error snd].
    + split; [|congruence]. destruct c; simpl; tauto.
    + split; [simpl; tauto | reflexivity].
Qed.

Lemma classifyCatch_cases (env : Env) (e : Thrown) (h : list Event)
    (r : ClassifyResult) :
  fst (run env (classifyCatch host e) h) = Fulfilled r ->
  category r = value UNKNOWN /\ GeminiService.error r <> None.
Proof.
  destruct e as [[s|] | [[s|]|] | ]; cbn [classifyCatch run fst failed];
    intros H; inversion H; subst; cbn; split; congruence.
Qed.

(** What the service does once the key test has passed. *)
Lemma classifyWasteImage_with_key (API_KEY b : option jsstring) (m : jsstring)
    (env : Env) (h : list Event) :
  truthy API_KEY = true ->
  run env (classifyWasteImage host API_KEY b m) h
  = run env
      match env_vendor env h (request b m) with
      | VendorResponse (Some text) =>
          bind (classifyText host text) (fun r => Ret (Fulfilled r))
      | VendorResponse None =>
          classifyCatch host
            (ThrownError (MsgString (typeErrorMessage host TrimOfUndefined)))
      | VendorThrows e => classifyCatch host e
      end
      (h ++ [EvGenerateContent (request b m)]).
Proof.
  intros K. unfold classifyWasteImage. rewrite K. reflexivity.
Qed.

Lemma classifyWasteImage_cases (API_KEY b : option jsstring) (m : jsstring)
    (env : Env) (h : list Event) (r : ClassifyResult) :
  fst (run env (classifyWasteImage host API_KEY b m) h) = Fulfilled r ->
  In (category r) Object_values_WasteCategory
  /\ (GeminiService.error r <> None -> category r = value UNKNOWN).
Proof.
  destruct (truthy API_KEY) eqn:K.
  - rewrite classifyWasteImage_with_key by exact K.
    destruct (env_vendor env h (request b m)) as [[text|] | e].
    + rewrite run_bind. cbn [run fst]. rewrite classifyText_run.
      intros H; inversion H; subst. apply normalize_spec_cases.
    + intros H. apply classifyCatch_cases in H. destruct H as [-> _].
      split; [simpl; tauto | reflexivity].
    + intros H. apply classifyCatch_cases in H. destruct H as [-> _].
      split; [simpl; tauto | reflexivity].
  - unfold classifyWasteImage. rewrite K. cbn [negb run fst].
    intros H; inversion H; subst. split; [simpl; tauto | reflexivity].
Qed.

(** The result and the events depend on the environment only through the
    answer to the one request. *)
Lemma classifyWasteImage_same_answer (API_KEY b : option jsstring) (m : jsstring)
    (env1 env2 : Env) (h1 h2 : list Event) :
  env_vendor env1 h1 (request b m) = env_vendor env2 h2 (request b m) ->
  fst (run env1 (classifyWasteImage host API_KEY b m) h1)
  = fst (run env2 (classifyWasteImage host API_KEY b m) h2)
  /\ trace env1 (classifyWasteImage host API_KEY b m) h1
     = trace env2 (classifyWasteImage host API_KEY b m) h2.
Proof.
  intros V. unfold classifyWasteImage.
  destruct (truthy API_KEY); cbn [negb]; [|split; reflexivity].
  cbn [run trace]. rewrite V.
  destruct (env_vendor env2 h2 (request b m)) as [[text|] | e].
  - rewrite !run_bind, !trace_bind. cbn [run trace fst].
    rewrite !classifyText_run, !classifyText_trace. split; reflexivity.
  - destruct (classifyCatch_run env1 env2
                (ThrownError (MsgString (typeErrorMessage host TrimOfUndefined)))
                (h1 ++ [EvGenerateContent (request b m)])
                (h2 ++ [EvGenerateContent (request b m)])) as [R T].
    rewrite R, T. split; reflexivity.
  - destruct (classifyCatch_run env1 env2 e
                (h1 ++ [EvGenerateContent (request b m)])
                (h2 ++ [EvGenerateContent (request b m)])) as [R T].
    rewrite R, T. split; reflexivity.
Qed.

End ServiceFacts.

(** * Properties of [classifyWasteImage] *)

(** C1: for every response text, [classifyWasteImage] resolves with the
    normalisation the specification describes: the trimmed text is first
    matched exactly against the known category labels, and only when that
    fails are the keywords plastic, paper, cardboard, glass, metal searched
    for in the lower-cased text, in that order, the first one found
    deciding the category. *)
Theorem classifyWasteImage_normalizes_text
    (host : Host) (API_KEY b : option jsstring) (m : jsstring)
    (env : Env) (h : list Event) (text : jsstring) :
  truthy API_KEY = true ->
  env_vendor env h (request b m) = VendorResponse (Some text) ->
  fst (run env (classifyWasteImage host API_KEY b m) h)
  = Fulfilled (normalize_spec host text).
Proof.
  intros K V. rewrite classifyWasteImage_with_key by exact K.
  rewrite V, run_bind. cbn [run fst]. rewrite classifyText_run. reflexivity.
Qed.

Lemma classifyWasteImage_normalizes_text_witness :
  truthy Sample.key = true
  /\ env_vendor (Sample.answering "  Recycled PAPER over plastic wrap ") []
       (request (Some (js "iVBORw0KGgo=")) (js "image/png"))
     = VendorResponse (Some (js "  Recycled PAPER over plastic wrap "))
  /\ fst (run (Sample.answering "  Recycled PAPER over plastic wrap ")
            (classifyWasteImage Sample.host Sample.key
               (Some (js "iVBORw0KGgo=")) (js "image/png")) [])
     = Fulfilled (normalize_spec Sample.host
                    (js "  Recycled PAPER over plastic wrap ")).
Proof.
  split; [reflexivity | split; [reflexivity|]].
  apply (@classifyWasteImage_normalizes_text Sample.host Sample.key
           (Some (js "iVBORw0KGgo=")) (js "image/png")
           (Sample.answering "  Recycled PAPER over plastic wrap ") []
           (js "  Recycled PAPER over plastic wrap ")); reflexivity.
Defined.

(** The order of the keywords decides when several occur. *)
Example first_keyword_wins :
  normalize_spec Sample.host (js "  Recycled PAPER over plastic wrap ")
  = {| category := js "Plastic"; GeminiService.error := None |}
  /\ normalize_spec Sample.host (js "cardboard (paper based)")
     = {| category := js "Paper"; GeminiService.error := None |}.
Proof. split; vm_compute; reflexivity. Qed.

(** An exact label is taken as it is, also [Unknown], before any keyword. *)
Example exact_match_first :
  normalize_spec Sample.host (js " Unknown
")
  = {| category := js "Unknown"; GeminiService.error := None |}
  /\ normalize_spec Sample.host (js "Glass")
     = {| category := js "Glass"; GeminiService.error := None |}.
Proof. split; vm_compute; reflexivity. Qed.

(** C2: whatever the payload, the MIME type, the key, the answer of the
    vendor or the value it throws, the category of a value returned by
    [classifyWasteImage] is one of the six strings Plastic, Paper,
    Cardboard, Glass, Metal, Unknown. *)
Theorem classifyWasteImage_category_known
    (host : Host) (API_KEY b : option jsstring) (m : jsstring)
    (env : Env) (h : list Event) (r : ClassifyResult) :
  fst (run env (classifyWasteImage host API_KEY b m) h) = Fulfilled r ->
  In (category r)
     [js "Plastic"; js "Paper"; js "Cardboard"; js "Glass"; js "Metal"; js "Unknown"].
Proof.
  intros H. apply classifyWasteImage_cases in H. exact (proj1 H).
Qed.

Lemma classifyWasteImage_category_known_witness :
  fst (run (Sample.answering "It looks like a GLASS jar")
         (classifyWasteImage Sample.host Sample.key None (js "image/png")) [])
  = Fulfilled {| category := js "Glass"; GeminiService.error := None |}
  /\ In (js "Glass")
        [js "Plastic"; js "Paper"; js "Cardboard"; js "Glass"; js "Metal"; js "Unknown"].
Proof.
  split; [vm_compute; reflexivity|].
  apply (@classifyWasteImage_category_known Sample.host Sample.key None
           (js "image/png") (Sample.answering "It looks like a GLASS jar") []
           {| category := js "Glass"; GeminiService.error := None |}).
  vm_compute; reflexivity.
Defined.

(** C4: a response text whose trimmed form is none of the known labels and
    whose lower-cased form contains none of the five keywords is classified
    as Unknown. *)
Theorem classifyWasteImage_unmatched_is_unknown
    (host : Host) (API_KEY b : option jsstring) (m : jsstring)
    (env : Env) (h : list Event) (text : jsstring) :
  truthy API_KEY = true ->
  env_vendor env h (request b m) = VendorResponse (Some text) ->
  ~ In (trim text) Object_values_WasteCategory ->
  (forall kw,
      In kw [js "plastic"; js "paper"; js "cardboard"; js "glass"; js "metal"] ->
      includes (toLowerCase host (trim text)) kw = false) ->
  fst (run env (classifyWasteImage host API_KEY b m) h)
  = Fulfilled {| category := js "Unknown";
                 GeminiService.error :=
                   Some (js "Unexpected category: " ++ trim text) |}.
Proof.
  intros K V NoLabel NoKw.
  rewrite classifyWasteImage_with_key by exact K.
  rewrite V, run_bind. cbn [run fst]. rewrite classifyText_run.
  unfold normalize_spec. rewrite find_str_eqb.
  destruct (array_includes _ _) eqn:E.
  - apply array_includes_In in E. contradiction.
  - cbn [find keywords fst].
    rewrite !NoKw by (simpl; tauto). reflexivity.
Qed.

Lemma classifyWasteImage_unmatched_is_unknown_witness :
  truthy Sample.key = true
  /\ env_vendor (Sample.answering "A wooden chair") []
       (request None (js "image/png"))
     = VendorResponse (Some (js "A wooden chair"))
  /\ ~ In (trim (js "A wooden chair")) Object_values_WasteCategory
  /\ (forall kw,
         In kw [js "plastic"; js "paper"; js "cardboard"; js "glass"; js "metal"] ->
         includes (toLowerCase Sample.host (trim (js "A wooden chair"))) kw = false)
  /\ fst (run (Sample.answering "A wooden chair")
            (classifyWasteImage Sample.host Sample.key None (js "image/png")) [])
     = Fulfilled {| category := js "Unknown";
                    GeminiService.error :=
                      Some (js "Unexpected category: " ++ trim (js "A wooden chair")) |}.
Proof.
  assert (L : ~ In (trim (js "A wooden chair")) Object_values_WasteCategory).
  { intros H. apply array_includes_In in H. vm_compute in H. discriminate. }
  assert (W : forall kw,
             In kw [js "plastic"; js "paper"; js "cardboard"; js "glass"; js "metal"] ->
             includes (toLowerCase Sample.host (trim (js "A wooden chair"))) kw = false).
  { intros kw [<- | [<- | [<- | [<- | [<- | []]]]]]; vm_compute; reflexivity. }
  split; [reflexivity | split; [reflexivity | split; [exact L | split; [exact W|]]]].
  exact (@classifyWasteImage_unmatched_is_unknown Sample.host Sample.key None
           (js "image/png") (Sample.answering "A wooden chair") []
           (js "A wooden chair") eq_refl eq_refl L W).
Defined.

(** C5: a returned value that carries an error has the category Unknown;
    a category other than Unknown never comes with an error. *)
Theorem classifyWasteImage_error_implies_unknown
    (host : Host) (API_KEY b : option jsstring) (m : jsstring)
    (env : Env) (h : list Event) (r : ClassifyResult) :
  fst (run env (classifyWasteImage host API_KEY b m) h) = Fulfilled r ->
  (GeminiService.error r <> None -> category r = js "Unknown")
  /\ (category r <> js "Unknown" -> GeminiService.error r = None).
Proof.
  intros H. apply classifyWasteImage_cases in H. destruct H as [_ H].
  split; [exact H|].
  intros N. destruct (GeminiService.error r) eqn:E; [|reflexivity].
  exfalso. apply N, H. discriminate.
Qed.

Lemma classifyWasteImage_error_implies_unknown_witness :
  fst (run (Sample.answering "no idea")
         (classifyWasteImage Sample.host Sample.key None (js "image/png")) [])
  = Fulfilled {| category := js "Unknown";
                 GeminiService.error := Some (js "Unexpected category: no idea") |}
  /\ (Some (js "Unexpected category: no idea") <> None -> js "Unknown" = js "Unknown")
  /\ (js "Unknown" <> js "Unknown" -> Some (js "Unexpected category: no idea") = None).
Proof.
  split; [vm_compute; reflexivity|].
  apply (@classifyWasteImage_error_implies_unknown Sample.host Sample.key None
           (js "image/png") (Sample.answering "no idea") []
           {| category := js "Unknown";
              GeminiService.error := Some (js "Unexpected category: no idea") |}).
  vm_compute; reflexivity.
Defined.

(** C7: [classifyWasteImage] is stateless and deterministic.  Two runs
    with the same payload, MIME type and key, in any two environments and
    after any two histories, return equal results and produce the same
    events as soon as the vendor gives the same answer (the same response
    or the same thrown value) to the one request; nothing else of the
    environment or of what happened before is looked at. *)
Theorem classifyWasteImage_deterministic
    (host : Host) (API_KEY b : option jsstring) (m : jsstring)
    (env1 env2 : Env) (h1 h2 : list Event) :
  env_vendor env1 h1 (request b m) = env_vendor env2 h2 (request b m) ->
  fst (run env1 (classifyWasteImage host API_KEY b m) h1)
  = fst (run env2 (classifyWasteImage host API_KEY b m) h2)
  /\ trace env1 (classifyWasteImage host API_KEY b m) h1
     = trace env2 (classifyWasteImage host API_KEY b m) h2.
Proof. apply classifyWasteImage_same_answer. Qed.

Lemma classifyWasteImage_deterministic_witness :
  env_vendor (Sample.answering "Metal") [] (request None (js "image/png"))
  = env_vendor
      (constEnv ReadFailed (VendorResponse (Some (js "Metal"))))
      [EvConsoleWarn (js "earlier"); EvGenerateContent (request None (js "image/gif"))]
      (request None (js "image/png"))
  /\ fst (run (Sample.answering "Metal")
            (classifyWasteImage Sample.host Sample.key None (js "image/png")) [])
     = fst (run (constEnv ReadFailed (VendorResponse (Some (js "Metal"))))
              (classifyWasteImage Sample.host Sample.key None (js "image/png"))
              [EvConsoleWarn (js "earlier");
               EvGenerateContent (request None (js "image/gif"))])
  /\ trace (Sample.answering "Metal")
       (classifyWasteImage Sample.host Sample.key None (js "image/png")) []
     = trace (constEnv ReadFailed (VendorResponse (Some (js "Metal"))))
         (classifyWasteImage Sample.host Sample.key None (js "image/png"))
         [EvConsoleWarn (js "earlier");
          EvGenerateContent (request None (js "image/gif"))].
Proof.
  split; [reflexivity|].
  apply (@classifyWasteImage_deterministic Sample.host Sample.key None
           (js "image/png") (Sample.answering "Metal")
           (constEnv ReadFailed (VendorResponse (Some (js "Metal"))))
           []
           [EvConsoleWarn (js "earlier");
            EvGenerateContent (request None (js "image/gif"))]).
  reflexivity.
Defined.

(** Two calls one after the other: when the vendor answers the second
    request as it answered the first, the second call returns what the
    first returned; the first call has left nothing behind. *)
Lemma classifyWasteImage_twice
    (host : Host) (API_KEY b : option jsstring) (m : jsstring)
    (env : Env) (h : list Event) :
  let first := run env (classifyWasteImage host API_KEY b m) h in
  env_vendor env (snd first) (request b m) = env_vendor env h (request b m) ->
  fst (run env
         (r1 <- classifyWasteImage host API_KEY b m ;;
          r2 <- classifyWasteImage host API_KEY b m ;;
          Ret (r1, r2))%prog h)
  = (fst first, fst first).
Proof.
  intros first V. rewrite !run_bind. cbn [run fst]. fold first.
  f_equal. symmetry.
  exact (proj1 (@classifyWasteImage_same_answer host API_KEY b m env env h
                  (snd first) (eq_sym V))).
Qed.

(** C9: without a configured key (undefined or empty),
    [classifyWasteImage] returns the category Unknown with the error
    message "API Key not configured." at once: the run produces no event,
    so no network call is made, whatever the other inputs. *)
Theorem classifyWasteImage_without_key
    (host : Host) (API_KEY b : option jsstring) (m : jsstring)
    (env : Env) (h : list Event) :
  truthy API_KEY = false ->
  run env (classifyWasteImage host API_KEY b m) h
  = (Fulfilled {| category := js "Unknown";
                  GeminiService.error := Some (js "API Key not configured.") |},
     h)
  /\ trace env (classifyWasteImage host API_KEY b m) h = [].
Proof.
  intros K. unfold classifyWasteImage. rewrite K. split; reflexivity.
Qed.

Lemma classifyWasteImage_without_key_witness :
  truthy None = false
  /\ run (Sample.answering "Plastic")
        (classifyWasteImage Sample.host None (Some (js "iVBORw0KGgo=")) (js "image/png"))
        [EvConsoleWarn (js "earlier")]
     = (Fulfilled {| category := js "Unknown";
                     GeminiService.error := Some (js "API Key not configured.") |},
        [EvConsoleWarn (js "earlier")])
  /\ trace (Sample.answering "Plastic")
        (classifyWasteImage Sample.host None (Some (js "iVBORw0KGgo=")) (js "image/png"))
        [EvConsoleWarn (js "earlier")] = [].
Proof.
  split; [reflexivity|].
  apply (@classifyWasteImage_without_key Sample.host None
           (Some (js "iVBORw0KGgo=")) (js "image/png")
           (Sample.answering "Plastic") [EvConsoleWarn (js "earlier")]).
  reflexivity.
Defined.

(** An empty string for a key counts as no key. *)
Example empty_key_is_no_key :
  fst (run (Sample.answering "Plastic")
         (classifyWasteImage Sample.host (Some (js "")) None (js "image/png")) [])
  = Fulfilled {| category := js "Unknown";
                 GeminiService.error := Some (js "API Key not configured.") |}.
Proof. reflexivity. Qed.

(** * The App component *)

Section AppFacts.

Variable host : Host.
Variable API_KEY : option jsstring.

Lemma fileReads_app (h1 h2 : list Event) :
  fileReads (h1 ++ h2) = fileReads h1 + fileReads h2.
Proof. unfold fileReads. rewrite filter_app, length_app. reflexivity. Qed.

Lemma vendorCalls_app (h1 h2 : list Event) :
  vendorCalls (h1 ++ h2) = vendorCalls h1 + vendorCalls h2.
Proof. unfold vendorCalls. rewrite filter_app, length_app. reflexivity. Qed.

(** The service reads no file and calls the vendor once, when it has a key. *)
Lemma classifyWasteImage_counts (b : option jsstring) (m : jsstring)
    (env : Env) (h : list Event) :
  fileReads (trace env (classifyWasteImage host API_KEY b m) h) = 0
  /\ vendorCalls (trace env (classifyWasteImage host API_KEY b m) h)
     = if truthy API_KEY then 1 else 0.
Proof.
  unfold classifyWasteImage. destruct (truthy API_KEY); cbn [negb];
    [|split; reflexivity].
  cbn [trace]. destruct (env_vendor env h (request b m)) as [[text|] | e].
  - rewrite trace_bind, classifyText_trace. cbn [trace].
    destruct (array_includes _ _); split; reflexivity.
  - split; reflexivity.
  - destruct e as [[s|] | [[s|]|] | ]; split; reflexivity.
Qed.

Lemma handleClassifyAsync_ending (f : File) (m : jsstring)
    (env : Env) (h : list Event) :
  Ending (fst (run env (handleClassifyAsync host API_KEY f m) h)).
Proof.
  unfold handleClassifyAsync, imageToBase64. cbn [bind run].
  destruct (env_read env h f) as [result|]; cbn [bind run fst].
  - rewrite run_bind.
    destruct (fst (run env (classifyWasteImage host API_KEY _ m) _))
      as [r | e] eqn:R.
    + destruct (truthy (GeminiService.error r)) eqn:T; cbn [run fst].
      * destruct (GeminiService.error r) as [msg|] eqn:E; [|discriminate].
        apply EndedWithError. exact T.
      * apply EndedWithCategory.
        apply classifyWasteImage_cases in R. exact (proj1 R).
    + apply EndedUnexpected.
  - apply EndedUnexpected.
Qed.

Lemma Ending_effect (u : AppState -> AppState) (st : AppState) :
  Ending u ->
  isLoading (u st) = false
  /\ selectedFile (u st) = selectedFile st
  /\ mimeType (u st) = mimeType st
  /\ imageBase64Preview (u st) = imageBase64Preview st.
Proof. intros []; repeat split. Qed.

Lemma handleClassifyAsync_counts (f : File) (m : jsstring)
    (env : Env) (h : list Event) :
  fileReads (trace env (handleClassifyAsync host API_KEY f m) h) = 1
  /\ vendorCalls (trace env (handleClassifyAsync host API_KEY f m) h)
     = match env_read env h f with
       | ReadLoaded _ => if truthy API_KEY then 1 else 0
       | ReadFailed => 0
       end.
Proof.
  unfold handleClassifyAsync, imageToBase64. cbn [bind trace].
  destruct (env_read env h f) as [result|]; cbn [bind trace].
  - rewrite trace_bind.
    change (EvReadAsDataURL f :: ?l) with ([EvReadAsDataURL f] ++ l).
    rewrite !fileReads_app, !vendorCalls_app.
    destruct (classifyWasteImage_counts (split_comma_1 result) m env
                (h ++ [EvReadAsDataURL f])) as [-> ->].
    destruct (fst (run env (classifyWasteImage host API_KEY _ m) _)) as [r | e].
    + destruct (truthy (GeminiService.error r)); cbn; split; lia.
    + cbn. split; lia.
  - split; reflexivity.
Qed.

End AppFacts.

Section Invariant.

Variable host : Host.
Variable API_KEY : option jsstring.

Lemma isImage_type_nonempty (f : File) :
  isImage f = true -> exists c m, file_type f = c :: m.
Proof.
  unfold isImage, js. simpl. destruct (file_type f) as [|c m]; [discriminate | eauto].
Qed.

Lemma remove_nth_length {A : Type} (i : nat) (l : list A) (x : A) :
  nth_error l i = Some x -> S (List.length (remove_nth i l)) = List.length l.
Proof.
  revert i; induction l as [|y l IH]; intros [|i]; simpl; try discriminate.
  - reflexivity.
  - intros H. rewrite (IH i H). reflexivity.
Qed.

Lemma remove_nth_In {A : Type} (i : nat) (l : list A) (x : A) :
  In x (remove_nth i l) -> In x l.
Proof.
  revert i; induction l as [|y l IH]; intros [|i]; simpl; auto.
  intros [E | H]; [left; exact E | right; exact (IH i H)].
Qed.

Lemma handleFileChange_cases (file : option File) (st : AppState) :
  let st' := fst (handleFileChange file st) in
  isLoading st' = isLoading st
  /\ (forall f, selectedFile st' = Some f ->
        isImage f = true /\ mimeType st' = Some (file_type f)).
Proof.
  unfold handleFileChange. destruct file as [file|].
  - destruct (isImage file) eqn:I; cbn; split; try reflexivity.
    + intros f E. inversion E; subst. split; [exact I | reflexivity].
    + intros f E. discriminate.
  - cbn. split; [reflexivity | intros f E; discriminate].
Qed.

Lemma handleClassifyFrom_same (st : AppState) :
  handleClassify host API_KEY st = handleClassifyFrom host API_KEY st st.
Proof. reflexivity. Qed.

(** What a click on Classify does to the state, whatever the closure. *)
Lemma handleClassifyFrom_cases (closure st : AppState) :
  let r := handleClassifyFrom host API_KEY closure st in
  selectedFile (fst r) = selectedFile st
  /\ mimeType (fst r) = mimeType st
  /\ ((snd r = None /\ isLoading (fst r) = isLoading st)
      \/ (exists f c m,
             selectedFile closure = Some f /\ mimeType closure = Some (c :: m)
             /\ snd r = Some (handleClassifyAsync host API_KEY f (c :: m))
             /\ isLoading (fst r) = true)).
Proof.
  unfold handleClassifyFrom.
  destruct (selectedFile closure) as [f|]; [|cbn; auto].
  destruct (mimeType closure) as [[|c m]|]; cbn; auto.
  split; [reflexivity | split; [reflexivity|]]. right. exists f, c, m. auto.
Qed.

Lemma step_consistent (s s' : Sys) (a : Action) :
  consistent host API_KEY s -> step host API_KEY s a = Some s' ->
  consistent host API_KEY s'.
Proof.
  intros (L & P & F) H.
  destruct a as [file | | | i o | i rd v | ]; cbn [step] in H.
  - destruct (handleFileChange_cases file (ui s)) as [HL HF].
    destruct (handleFileChange file (ui s)) as [st started].
    injection H as <-. cbn [fst] in HL, HF.
    split; [|split]; cbn [ui inflight].
    + rewrite HL. exact L.
    + exact P.
    + exact HF.
  - destruct (classifyButtonShown _); [|discriminate].
    destruct (handleClassifyFrom_cases (shown s) (ui s)) as (SF & MT & C).
    destruct (handleClassifyFrom host API_KEY (shown s) (ui s)) as [st started].
    injection H as <-. cbn [fst snd] in SF, MT, C.
    split; [|split]; cbn [ui inflight].
    + destruct C as [[-> IL] | (f & c & m & _ & _ & -> & _)].
      * rewrite IL, app_nil_r. exact L.
      * intros _ E. apply app_eq_nil in E. destruct E as [_ E]. discriminate.
    + intros p I. apply in_app_or in I. destruct I as [I | I]; [exact (P p I)|].
      destruct C as [[-> _] | (f & c & m & _ & _ & -> & _)]; [destruct I|].
      destruct I as [<- | []]. eauto.
    + intros g E. rewrite SF in E. rewrite MT. exact (F g E).
  - destruct (isSome _); [|discriminate]. injection H as <-.
    split; [|split]; cbn.
    + exact L.
    + exact P.
    + intros f E; discriminate.
  - destruct (nth_error (readers s) i); [|discriminate]. injection H as <-.
    split; [|split]; cbn.
    + exact L.
    + exact P.
    + exact F.
  - destruct (nth_error (inflight s) i) as [p|] eqn:N; [|discriminate].
    destruct (P p (nth_error_In _ _ N)) as (f & m & ->).
    pose proof (handleClassifyAsync_ending host API_KEY f m (constEnv rd v) [])
      as En.
    remember (fst (run (constEnv rd v) (handleClassifyAsync host API_KEY f m) []))
      as u eqn:Hu. clear Hu.
    destruct (Ending_effect (ui s) En) as (E1 & E2 & E3 & _).
    injection H as <-.
    split; [|split]; cbn [ui inflight].
    + rewrite E1. discriminate.
    + intros q Hq. apply P. exact (remove_nth_In _ _ _ Hq).
    + intros g E. rewrite E2 in E. rewrite E3. apply F; exact E.
  - injection H as <-. split; [|split]; cbn.
    + exact L.
    + exact P.
    + exact F.
Qed.

Lemma initial_consistent : consistent host API_KEY initialSys.
Proof.
  split; [|split]; cbn; try discriminate. intros p [].
Qed.

Lemma steps_app (l1 l2 : list Action) (s : Sys) :
  steps host API_KEY s (l1 ++ l2)
  = match steps host API_KEY s l1 with
    | Some s1 => steps host API_KEY s1 l2
    | None => None
    end.
Proof.
  revert s; induction l1 as [|a l1 IH]; intros s; cbn [steps app]; [reflexivity|].
  destruct (step host API_KEY s a); [apply IH | reflexivity].
Qed.

(** Induction over the states the component can reach. *)
Lemma reachable_induction (Q : Sys -> Prop) :
  Q initialSys ->
  (forall s a s', reachable host API_KEY s -> Q s ->
                  step host API_KEY s a = Some s' -> Q s') ->
  forall s, reachable host API_KEY s -> Q s.
Proof.
  intros Q0 QS s [l H]. revert s H.
  induction l as [|a l IH] using rev_ind; intros s H.
  - injection H as <-. exact Q0.
  - rewrite steps_app in H.
    destruct (steps host API_KEY initialSys l) as [s1|] eqn:E; [|discriminate].
    cbn [steps] in H.
    destruct (step host API_KEY s1 a) as [s2|] eqn:S; [|discriminate].
    injection H as <-.
    apply (QS s1 a s2); [exists l; exact E | apply IH; reflexivity | exact S].
Qed.

Lemma reachable_consistent (s : Sys) :
  reachable host API_KEY s -> consistent host API_KEY s.
Proof.
  apply reachable_induction.
  - exact initial_consistent.
  - intros s0 a s1 _ C S. exact (step_consistent a C S).
Qed.

(** What is on the page was the state of the component at some point. *)
Lemma shown_was_current (s : Sys) :
  reachable host API_KEY s ->
  exists s0, reachable host API_KEY s0 /\ ui s0 = shown s.
Proof.
  revert s.
  apply (reachable_induction
           (fun s => exists s0, reachable host API_KEY s0 /\ ui s0 = shown s)).
  - exists initialSys. split; [exists []; reflexivity | reflexivity].
  - intros s0 a s1 R IH S.
    assert (K : shown s1 = shown s0 \/ shown s1 = ui s0).
    { destruct a as [file | | | i o | i rd v | ]; cbn [step] in S.
      - destruct (handleFileChange file (ui s0)). injection S as <-. left; reflexivity.
      - destruct (classifyButtonShown _); [|discriminate].
        destruct (handleClassifyFrom host API_KEY (shown s0) (ui s0)).
        injection S as <-. left; reflexivity.
      - destruct (isSome _); [|discriminate]. injection S as <-. left; reflexivity.
      - destruct (nth_error (readers s0) i); [|discriminate].
        injection S as <-. left; reflexivity.
      - destruct (nth_error (inflight s0) i); [|discriminate].
        injection S as <-. left; reflexivity.
      - injection S as <-. right; reflexivity. }
    destruct K as [-> | ->]; [exact IH | exists s0; split; [exact R | reflexivity]].
Qed.

(** When React commits a render after every event, the loading flag
    counts the requests in flight: there is at most one, and while it is
    in flight the button is not on the page. *)
Lemma one_request_when_rendered_after_each_event (l : list Action) (s : Sys) :
  steps host API_KEY initialSys (renderedAfterEach l) = Some s ->
  shown s = ui s
  /\ List.length (inflight s) = (if isLoading (ui s) then 1 else 0)
  /\ (inflight s <> [] -> step host API_KEY s ClickClassify = None).
Proof.
  intros H.
  assert (G : forall l s0 s1,
             consistent host API_KEY s0 -> shown s0 = ui s0 ->
             List.length (inflight s0) = (if isLoading (ui s0) then 1 else 0) ->
             steps host API_KEY s0 (renderedAfterEach l) = Some s1 ->
             shown s1 = ui s1
             /\ List.length (inflight s1) = (if isLoading (ui s1) then 1 else 0)).
  { clear. induction l as [|a l IH]; intros s0 s1 C Sh Len H.
    - injection H as <-. split; assumption.
    - cbn [renderedAfterEach flat_map app steps] in H.
      destruct (step host API_KEY s0 a) as [s2|] eqn:S; [|discriminate].
      cbn [step] in H. fold (renderedAfterEach l) in H.
      pose proof (step_consistent a C S) as C2.
      refine (IH {| ui := ui s2; shown := ui s2; inflight := inflight s2;
                    readers := readers s2 |} s1 _ eq_refl _ H).
      + destruct C2 as (L2 & P2 & F2). split; [|split]; assumption.
      + cbn [ui inflight]. destruct C as (L & P & F).
        destruct a as [file | | | i o | i rd v | ]; cbn [step] in S.
        * destruct (handleFileChange_cases file (ui s0)) as [HL _].
          destruct (handleFileChange file (ui s0)) as [st started].
          injection S as <-. cbn [fst] in HL. cbn [ui inflight].
          rewrite HL. exact Len.
        * rewrite Sh in S. unfold render in S. cbn [classifyButtonShown] in S.
          destruct (selectedFile (ui s0)) as [f|] eqn:SF; [|discriminate].
          destruct (isLoading (ui s0)) eqn:IL; [discriminate|].
          cbn [isSome negb andb] in S.
          destruct (F f eq_refl) as [I M].
          destruct (isImage_type_nonempty f I) as (c & m & T).
          unfold handleClassifyFrom in S. rewrite SF, M, T in S.
          injection S as <-. cbn.
          destruct (inflight s0); [reflexivity | discriminate].
        * destruct (isSome _); [|discriminate]. injection S as <-. exact Len.
        * destruct (nth_error (readers s0) i); [|discriminate].
          injection S as <-. exact Len.
        * destruct (nth_error (inflight s0) i) as [p|] eqn:N; [|discriminate].
          pose proof (remove_nth_length i (inflight s0) N) as RL.
          destruct (P p (nth_error_In _ _ N)) as (f & m & ->).
          pose proof (handleClassifyAsync_ending host API_KEY f m (constEnv rd v) [])
            as En.
          remember (fst (run (constEnv rd v)
                           (handleClassifyAsync host API_KEY f m) []))
            as u eqn:Hu. clear Hu.
          destruct (Ending_effect (ui s0) En) as (E1 & _).
          injection S as <-. cbn [ui inflight]. rewrite E1.
          destruct (isLoading (ui s0)); lia.
        * injection S as <-. exact Len. }
  destruct (G l initialSys s initial_consistent eq_refl eq_refl H) as [Sh Len].
  split; [exact Sh | split; [exact Len|]].
  intros N. cbn [step]. rewrite Sh. unfold render. cbn [classifyButtonShown].
  destruct (isLoading (ui s)); [rewrite andb_false_r; reflexivity|].
  destruct (inflight s); [congruence | discriminate].
Qed.

End Invariant.

(** * Properties of the component *)

(** When the guard of [handleClassify] passes, the call starts. *)
Lemma handleClassify_started (host : Host) (API_KEY : option jsstring)
    (st st' : AppState) (p : Prog (AppState -> AppState)) :
  handleClassify host API_KEY st = (st', Some p) ->
  exists f m, selectedFile st = Some f /\ p = handleClassifyAsync host API_KEY f m
              /\ isLoading st' = true.
Proof.
  unfold handleClassify.
  destruct (selectedFile st) as [f|]; [|discriminate].
  destruct (mimeType st) as [[|c m]|]; try discriminate.
  intros H; inversion H; subst. exists f, (c :: m). repeat split.
Qed.

(** C6, at two clicks on Classify handled before React commits the render
    that the first one asked for: the button is still on the page and the
    closure of the handler is still the one of that page, so the second
    click starts a second request; two requests are in flight.  When the
    first of them settles, the loading state is cleared and the next
    render puts the button back while the other request is still in
    flight. *)
Theorem two_clicks_before_render_start_two_requests :
  option_map
    (fun s => (List.length (inflight s), isLoading (ui s),
               classifyButtonShown (render Sample.key (shown s))))
    (steps Sample.host Sample.key initialSys
       [FileChange (Some Sample.photo); Render; ClickClassify; ClickClassify])
  = Some (2, true, true)
  /\ option_map
       (fun s => (List.length (inflight s), isLoading (ui s),
                  classifyButtonShown (render Sample.key (shown s))))
       (steps Sample.host Sample.key initialSys
          [FileChange (Some Sample.photo); Render; ClickClassify; ClickClassify;
           Render;
           ClassifySettles 0 (ReadLoaded Sample.dataURL)
             (VendorResponse (Some (js "Glass")));
           Render])
     = Some (1, false, true).
Proof. split; vm_compute; reflexivity. Qed.

(** X20: in a state the component can reach, a click on the rendered
    Classify button always passes the guard: the attempt starts. *)
Lemma click_starts_attempt (host : Host) (API_KEY : option jsstring) (s : Sys) :
  reachable host API_KEY s ->
  classifyButtonShown (render API_KEY (ui s)) = true ->
  exists st p, handleClassify host API_KEY (ui s) = (st, Some p).
Proof.
  intros R B. destruct (reachable_consistent R) as (_ & _ & F).
  unfold render in B; cbn [classifyButtonShown] in B.
  destruct (selectedFile (ui s)) as [f|] eqn:SF; [|discriminate].
  destruct (F f eq_refl) as [I M].
  destruct (isImage_type_nonempty f I) as (c & m & T).
  unfold handleClassify. rewrite SF, M, T. eauto.
Qed.

(** C8: a classification attempt (a call of [handleClassify] that passes
    its guard) reads the selected file exactly once and calls the vendor
    at most once, in every environment and after every history: what
    happened before saves no read and no call (no caching), and whatever
    the vendor answers or throws, it is not asked again (no retry).  With
    a key configured and the file read, the call is made exactly once. *)
Theorem classification_attempt_effects
    (host : Host) (API_KEY : option jsstring) (st st' : AppState)
    (p : Prog (AppState -> AppState)) (env : Env) (h : list Event) :
  handleClassify host API_KEY st = (st', Some p) ->
  fileReads (trace env p h) = 1
  /\ vendorCalls (trace env p h) <= 1
  /\ (forall f, selectedFile st = Some f ->
                truthy API_KEY = true ->
                env_read env h f <> ReadFailed ->
                vendorCalls (trace env p h) = 1).
Proof.
  intros H. destruct (handleClassify_started _ _ _ H) as (f & m & SF & -> & _).
  destruct (handleClassifyAsync_counts host API_KEY f m env h) as [Rd Vc].
  split; [exact Rd|]. split.
  - rewrite Vc. destruct (env_read env h f), (truthy API_KEY); lia.
  - intros g SG K NF. rewrite SF in SG. inversion SG; subst g.
    rewrite Vc, K. destruct (env_read env h f); [reflexivity | congruence].
Qed.

Lemma classification_attempt_effects_witness :
  handleClassify Sample.host Sample.key
    {| selectedFile := Some Sample.photo; imageBase64Preview := Some Sample.dataURL;
       mimeType := Some (js "image/png"); classificationResult := None;
       isLoading := false; error := None |}
  = ({| selectedFile := Some Sample.photo; imageBase64Preview := Some Sample.dataURL;
        mimeType := Some (js "image/png"); classificationResult := None;
        isLoading := true; error := None |},
     Some (handleClassifyAsync Sample.host Sample.key Sample.photo (js "image/png")))
  /\ fileReads
       (trace (Sample.throwing (ThrownError (MsgString (js "503 overloaded"))))
          (handleClassifyAsync Sample.host Sample.key Sample.photo (js "image/png"))
          [EvGenerateContent (request (Some (js "iVBORw0KGgo=")) (js "image/png"))])
     = 1
  /\ vendorCalls
       (trace (Sample.throwing (ThrownError (MsgString (js "503 overloaded"))))
          (handleClassifyAsync Sample.host Sample.key Sample.photo (js "image/png"))
          [EvGenerateContent (request (Some (js "iVBORw0KGgo=")) (js "image/png"))])
     = 1.
Proof.
  split; [reflexivity|].
  pose proof (@classification_attempt_effects Sample.host Sample.key
    {| selectedFile := Some Sample.photo; imageBase64Preview := Some Sample.dataURL;
       mimeType := Some (js "image/png"); classificationResult := None;
       isLoading := false; error := None |}
    _ _
    (Sample.throwing (ThrownError (MsgString (js "503 overloaded"))))
    [EvGenerateContent (request (Some (js "iVBORw0KGgo=")) (js "image/png"))]
    eq_refl) as (R & _ & V).
  split; [exact R|].
  apply (V Sample.photo); [reflexivity | reflexivity | discriminate].
Defined.

(** C10: a file whose MIME type does not start with image/ makes
    [handleFileChange] set the validation message and clear the selected
    file, the preview and the stored MIME type (no preview reader is
    started either); and in no state the component can reach is such a
    file the selected file. *)
Theorem handleFileChange_rejects_non_image
    (host : Host) (API_KEY : option jsstring) (file : File) :
  isImage file = false ->
  (forall st,
      handleFileChange (Some file) st
      = ({| selectedFile := None; imageBase64Preview := None; mimeType := None;
            classificationResult := None; isLoading := isLoading st;
            error := Some (js "Please upload a valid image file (PNG, JPG, GIF, WEBP, etc.).") |},
         None))
  /\ (forall s, reachable host API_KEY s -> selectedFile (ui s) <> Some file).
Proof.
  intros N. split.
  - intros st. unfold handleFileChange. rewrite N. reflexivity.
  - intros s R E. destruct (reachable_consistent R) as (_ & _ & F).
    destruct (F file E) as [I _]. congruence.
Qed.

Lemma handleFileChange_rejects_non_image_witness :
  isImage Sample.notes = false
  /\ (forall st,
         handleFileChange (Some Sample.notes) st
         = ({| selectedFile := None; imageBase64Preview := None; mimeType := None;
               classificationResult := None; isLoading := isLoading st;
               error := Some (js "Please upload a valid image file (PNG, JPG, GIF, WEBP, etc.).") |},
            None))
  /\ (forall s, reachable Sample.host Sample.key s ->
                selectedFile (ui s) <> Some Sample.notes).
Proof.
  split; [reflexivity|].
  apply (@handleFileChange_rejects_non_image Sample.host Sample.key Sample.notes).
  reflexivity.
Defined.

(** * Errors thrown by the vendor call *)

(** X19: a thrown value whose [message], if it has one, is a string is
    caught: the service resolves with the category Unknown and a message. *)
Lemma thrown_with_string_message_is_caught
    (host : Host) (API_KEY b : option jsstring) (m : jsstring)
    (env : Env) (h : list Event) (e : Thrown) :
  truthy API_KEY = true ->
  env_vendor env h (request b m) = VendorThrows e ->
  e <> ThrownError MsgNoIncludes ->
  e <> ThrownObject (Some MsgNoIncludes) ->
  exists msg,
    fst (run env (classifyWasteImage host API_KEY b m) h)
    = Fulfilled {| category := js "Unknown"; GeminiService.error := Some msg |}.
Proof.
  intros K V N1 N2. rewrite classifyWasteImage_with_key by exact K. rewrite V.
  destruct e as [[s|] | [[s|]|] | ]; try congruence; eexists; reflexivity.
Qed.

(** The message of a caught [Error] is its own, unless it mentions an
    invalid key. *)
Example caught_error_messages :
  fst (run (Sample.throwing (ThrownError (MsgString (js "503 overloaded"))))
         (classifyWasteImage Sample.host Sample.key None (js "image/png")) [])
  = Fulfilled {| category := js "Unknown";
                 GeminiService.error := Some (js "503 overloaded") |}
  /\ fst (run (Sample.throwing
                 (ThrownError (MsgString (js "400: API key not valid. Pass a valid key."))))
            (classifyWasteImage Sample.host Sample.key None (js "image/png")) [])
     = Fulfilled {| category := js "Unknown";
                    GeminiService.error :=
                      Some (js "Invalid API Key. Please check your configuration.") |}
  /\ fst (run (Sample.throwing ThrownOther)
            (classifyWasteImage Sample.host Sample.key None (js "image/png")) [])
     = Fulfilled {| category := js "Unknown";
                    GeminiService.error :=
                      Some (js "Failed to classify image due to an API error.") |}.
Proof. repeat split; vm_compute; reflexivity. Qed.

(** A result with a non-empty error message is displayed by the App. *)
Lemma nonempty_error_is_displayed
    (host : Host) (API_KEY : option jsstring) (f : File) (m d : jsstring)
    (env : Env) (h : list Event) (r : ClassifyResult) (st : AppState) :
  env_read env h f = ReadLoaded d ->
  fst (run env (classifyWasteImage host API_KEY (split_comma_1 d) m)
         (h ++ [EvReadAsDataURL f])) = Fulfilled r ->
  truthy (GeminiService.error r) = true ->
  errorShown (render API_KEY
                (fst (run env (handleClassifyAsync host API_KEY f m) h) st))
  = GeminiService.error r.
Proof.
  intros Rd R T. unfold handleClassifyAsync, imageToBase64. cbn [bind run].
  rewrite Rd. cbn [bind]. rewrite run_bind, R, T. cbn [run fst].
  unfold render; cbn. rewrite T. reflexivity.
Qed.

(** C3, at an [Error] with an empty message thrown by the vendor call: the
    service catches it and resolves with the empty string as its error
    message; the App tests that message for truthiness, takes the result
    for a success, and displays no error message but the result card
    Unknown. *)
Theorem empty_error_message_is_not_displayed :
  fst (run (Sample.throwing (ThrownError (MsgString (js ""))))
         (classifyWasteImage Sample.host Sample.key
            (Some (js "iVBORw0KGgo=")) (js "image/png")) [])
  = Fulfilled {| category := js "Unknown"; GeminiService.error := Some (js "") |}
  /\ option_map (fun s => render Sample.key (shown s))
       (steps Sample.host Sample.key initialSys
          [FileChange (Some Sample.photo);
           PreviewLoadEnd 0 (ReadLoaded Sample.dataURL);
           Render;
           ClickClassify;
           Render;
           ClassifySettles 0 (ReadLoaded Sample.dataURL)
             (VendorThrows (ThrownError (MsgString (js ""))));
           Render])
     = Some {| previewShown := Some Sample.dataURL;
               classifyButtonShown := true;
               spinnerShown := false;
               errorShown := None;
               resultCardShown := Some (js "Unknown");
               apiKeyWarningShown := false |}.
Proof. split; vm_compute; reflexivity. Qed.

(** A thrown object whose [message] is not a string makes the [catch]
    block itself raise: the promise of the service is rejected, and the
    App shows the fixed message of its own [catch]. *)
Example non_string_message_escapes_catch :
  fst (run (Sample.throwing (ThrownObject (Some MsgNoIncludes)))
         (classifyWasteImage Sample.host Sample.key None (js "image/png")) [])
  = Rejected (ThrownError (MsgString (js "err.message.includes is not a function")))
  /\ option_map (fun s => errorShown (render Sample.key (shown s)))
       (steps Sample.host Sample.key initialSys
          [FileChange (Some Sample.photo);
           Render;
           ClickClassify;
           Render;
           ClassifySettles 0 (ReadLoaded Sample.dataURL)
             (VendorThrows (ThrownObject (Some MsgNoIncludes)));
           Render])
     = Some (Some (js "An unexpected error occurred during classification.")).
Proof. split; vm_compute; reflexivity. Qed.

Import Presentation.

(** * More about the runtime functions *)

Section TrimFacts.

Lemma trimStart_skips (l s : jsstring) :
  forallb isWhiteSpace l = true -> trimStart (l ++ s) = trimStart s.
Proof.
  induction l as [|c l IH]; simpl; [reflexivity|].
  intros H. apply andb_true_iff in H. destruct H as [Hc Hl].
  rewrite Hc. exact (IH Hl).
Qed.

Lemma trimStart_empty (s : jsstring) :
  trimStart s = [] <-> forallb isWhiteSpace s = true.
Proof.
  induction s as [|c s IH]; simpl; [tauto|].
  destruct (isWhiteSpace c); simpl; [exact IH|].
  split; discriminate.
Qed.

Lemma trimStart_keeps_tail (s r : jsstring) :
  trimStart s <> [] -> trimStart (s ++ r) = trimStart s ++ r.
Proof.
  induction s as [|c s IH]; simpl; [congruence|].
  destruct (isWhiteSpace c); [exact IH | reflexivity].
Qed.

Lemma trimEnd_skips (s r : jsstring) :
  forallb isWhiteSpace r = true -> trimEnd (s ++ r) = trimEnd s.
Proof.
  intros H. unfold trimEnd. rewrite rev_app_distr, trimStart_skips; [reflexivity|].
  rewrite forallb_forall in *. intros x Hx. apply H, in_rev. exact Hx.
Qed.

(** White space around a string does not change what [trim] gives. *)
Lemma trim_padding (l s r : jsstring) :
  forallb isWhiteSpace l = true -> forallb isWhiteSpace r = true ->
  trim (l ++ s ++ r) = trim s.
Proof.
  intros Hl Hr. unfold trim. rewrite trimStart_skips by exact Hl.
  destruct (trimStart s) as [|c t] eqn:E.
  - assert (W : forallb isWhiteSpace (s ++ r) = true).
    { rewrite forallb_app, Hr, andb_true_r. apply trimStart_empty. exact E. }
    apply trimStart_empty in W. rewrite W. reflexivity.
  - rewrite trimStart_keeps_tail by (rewrite E; discriminate).
    rewrite E. apply trimEnd_skips. exact Hr.
Qed.

Lemma trim_idempotent (s : jsstring) : trim (trim s) = trim s.
Proof.
  destruct (trim_decompose s) as (l & r & E & Hl & Hr).
  rewrite E at 2. symmetry. apply trim_padding; assumption.
Qed.

Lemma afterComma_none (s : jsstring) : afterComma s = None <-> ~ In comma s.
Proof.
  induction s as [|c s IH]; simpl; [tauto|].
  destruct (N.eqb c comma) eqn:E.
  - apply N.eqb_eq in E. split; [discriminate | intros H; exfalso; apply H; auto].
  - apply N.eqb_neq in E. rewrite IH. split.
    + intros H [F | F]; [congruence | contradiction].
    + intros H F. apply H. right. exact F.
Qed.

Lemma afterComma_first (pre rest : jsstring) :
  ~ In comma pre -> afterComma (pre ++ comma :: rest) = Some rest.
Proof.
  induction pre as [|c pre IH]; simpl; intros H.
  - reflexivity.
  - destruct (N.eqb c comma) eqn:E.
    + apply N.eqb_eq in E. exfalso. apply H. left. exact E.
    + apply IH. intros F. apply H. right. exact F.
Qed.

Lemma upToComma_whole (s : jsstring) : ~ In comma s -> upToComma s = s.
Proof.
  induction s as [|c s IH]; simpl; intros H; [reflexivity|].
  destruct (N.eqb c comma) eqn:E.
  - apply N.eqb_eq in E. exfalso. apply H. left. exact E.
  - f_equal. apply IH. intros F. apply H. right. exact F.
Qed.

Lemma upToComma_first (s rest : jsstring) :
  ~ In comma s -> upToComma (s ++ comma :: rest) = s.
Proof.
  induction s as [|c s IH]; simpl; intros H; [reflexivity|].
  destruct (N.eqb c comma) eqn:E.
  - apply N.eqb_eq in E. exfalso. apply H. left. exact E.
  - f_equal. apply IH. intros F. apply H. right. exact F.
Qed.

End TrimFacts.

(** * [imageToBase64] *)

(** X1: when the reader loads a data URL made of a header without comma,
    a comma and a payload without comma, [imageToBase64] resolves with
    exactly the payload. *)
Theorem imageToBase64_gives_payload
    (file : File) (env : Env) (h : list Event) (header payload : jsstring) :
  env_read env h file = ReadLoaded (header ++ comma :: payload) ->
  ~ In comma header -> ~ In comma payload ->
  fst (run env (imageToBase64 file) h) = Fulfilled (Some payload).
Proof.
  intros R H P. unfold imageToBase64. cbn [run]. rewrite R. cbn [run fst].
  unfold split_comma_1. rewrite afterComma_first by exact H.
  cbn [option_map]. rewrite upToComma_whole by exact P. reflexivity.
Qed.

Lemma imageToBase64_gives_payload_witness :
  env_read (Sample.answering "Glass") [] Sample.photo
  = ReadLoaded (js "data:image/png;base64" ++ comma :: js "iVBORw0KGgo=")
  /\ ~ In comma (js "data:image/png;base64")
  /\ ~ In comma (js "iVBORw0KGgo=")
  /\ fst (run (Sample.answering "Glass") (imageToBase64 Sample.photo) [])
     = Fulfilled (Some (js "iVBORw0KGgo=")).
Proof.
  assert (H : ~ In comma (js "data:image/png;base64")).
  { apply afterComma_none. reflexivity. }
  assert (P : ~ In comma (js "iVBORw0KGgo=")).
  { apply afterComma_none. reflexivity. }
  split; [reflexivity | split; [exact H | split; [exact P|]]].
  exact (@imageToBase64_gives_payload Sample.photo (Sample.answering "Glass") []
           (js "data:image/png;base64") (js "iVBORw0KGgo=") eq_refl H P).
Defined.

(** X2: a loaded data URL makes [imageToBase64] resolve, never reject; it
    resolves with [undefined] exactly when the data URL holds no comma. *)
Theorem imageToBase64_undefined_iff_no_comma
    (file : File) (env : Env) (h : list Event) (dataURL : jsstring) :
  env_read env h file = ReadLoaded dataURL ->
  (exists base64, fst (run env (imageToBase64 file) h) = Fulfilled base64)
  /\ (fst (run env (imageToBase64 file) h) = Fulfilled None
      <-> ~ In comma dataURL).
Proof.
  intros R. unfold imageToBase64. cbn [run]. rewrite R. cbn [run fst].
  split; [eauto|]. rewrite <- afterComma_none. unfold split_comma_1.
  destruct (afterComma dataURL); cbn [option_map]; split; congruence.
Qed.

Lemma imageToBase64_undefined_iff_no_comma_witness :
  env_read (constEnv (ReadLoaded (js "data:")) (VendorResponse None)) []
    Sample.photo = ReadLoaded (js "data:")
  /\ (exists base64,
         fst (run (constEnv (ReadLoaded (js "data:")) (VendorResponse None))
                (imageToBase64 Sample.photo) []) = Fulfilled base64)
  /\ (fst (run (constEnv (ReadLoaded (js "data:")) (VendorResponse None))
             (imageToBase64 Sample.photo) []) = Fulfilled None
      <-> ~ In comma (js "data:")).
Proof.
  split; [reflexivity|].
  apply (@imageToBase64_undefined_iff_no_comma Sample.photo
           (constEnv (ReadLoaded (js "data:")) (VendorResponse None)) []
           (js "data:")).
  reflexivity.
Defined.

(** * More about [classifyWasteImage] *)

Lemma normalize_spec_padding (host : Host) (l text r : jsstring) :
  forallb isWhiteSpace l = true -> forallb isWhiteSpace r = true ->
  normalize_spec host (l ++ text ++ r) = normalize_spec host text.
Proof.
  intros Hl Hr. unfold normalize_spec. rewrite trim_padding by assumption.
  reflexivity.
Qed.

Lemma trim_label (c : WasteCategory) : trim (value c) = value c.
Proof. destruct c; vm_compute; reflexivity. Qed.

(** X3: white space around the answer of the model does not change the
    result: a response and the same response padded with white space on
    either side are classified alike. *)
Theorem classifyWasteImage_ignores_padding
    (host : Host) (API_KEY b : option jsstring) (m : jsstring)
    (env1 env2 : Env) (h1 h2 : list Event) (l text r : jsstring) :
  forallb isWhiteSpace l = true -> forallb isWhiteSpace r = true ->
  env_vendor env1 h1 (request b m) = VendorResponse (Some text) ->
  env_vendor env2 h2 (request b m) = VendorResponse (Some (l ++ text ++ r)) ->
  fst (run env1 (classifyWasteImage host API_KEY b m) h1)
  = fst (run env2 (classifyWasteImage host API_KEY b m) h2).
Proof.
  intros Hl Hr V1 V2. destruct (truthy API_KEY) eqn:K.
  - rewrite !classifyWasteImage_with_key by exact K. rewrite V1, V2.
    rewrite !run_bind. cbn [run fst]. rewrite !classifyText_run.
    rewrite normalize_spec_padding by assumption. reflexivity.
  - unfold classifyWasteImage. rewrite K. reflexivity.
Qed.

Lemma classifyWasteImage_ignores_padding_witness :
  forallb isWhiteSpace (js " ") = true
  /\ forallb isWhiteSpace [10%N; 13%N] = true
  /\ env_vendor (Sample.answering "a paper cup") [] (request None (js "image/png"))
     = VendorResponse (Some (js "a paper cup"))
  /\ env_vendor
       (constEnv ReadFailed
          (VendorResponse (Some (js " " ++ js "a paper cup" ++ [10%N; 13%N]))))
       [] (request None (js "image/png"))
     = VendorResponse (Some (js " " ++ js "a paper cup" ++ [10%N; 13%N]))
  /\ fst (run (Sample.answering "a paper cup")
            (classifyWasteImage Sample.host Sample.key None (js "image/png")) [])
     = fst (run (constEnv ReadFailed
                   (VendorResponse (Some (js " " ++ js "a paper cup" ++ [10%N; 13%N]))))
              (classifyWasteImage Sample.host Sample.key None (js "image/png")) []).
Proof.
  split; [reflexivity | split; [reflexivity | split; [reflexivity | split;
    [reflexivity|]]]].
  apply (@classifyWasteImage_ignores_padding Sample.host Sample.key None
           (js "image/png") (Sample.answering "a paper cup")
           (constEnv ReadFailed
              (VendorResponse (Some (js " " ++ js "a paper cup" ++ [10%N; 13%N]))))
           [] [] (js " ") (js "a paper cup") [10%N; 13%N]); reflexivity.
Defined.

(** X4: each of the six category names, answered by the model with any
    white space around it, comes back as that category, without an error
    and without a console warning: the only event of the call is the one
    request. *)
Theorem classifyWasteImage_label_round_trip
    (host : Host) (API_KEY b : option jsstring) (m : jsstring)
    (env : Env) (h : list Event) (c : WasteCategory) (l r : jsstring) :
  truthy API_KEY = true ->
  forallb isWhiteSpace l = true -> forallb isWhiteSpace r = true ->
  env_vendor env h (request b m) = VendorResponse (Some (l ++ value c ++ r)) ->
  run env (classifyWasteImage host API_KEY b m) h
  = (Fulfilled {| category := value c; GeminiService.error := None |},
     h ++ [EvGenerateContent (request b m)]).
Proof.
  intros K Hl Hr V. rewrite classifyWasteImage_with_key by exact K. rewrite V.
  unfold classifyText. rewrite trim_padding by assumption. rewrite trim_label.
  replace (array_includes Object_values_WasteCategory (value c)) with true
    by (destruct c; reflexivity).
  reflexivity.
Qed.

Lemma classifyWasteImage_label_round_trip_witness :
  truthy Sample.key = true
  /\ forallb isWhiteSpace (js "  ") = true
  /\ forallb isWhiteSpace [10%N] = true
  /\ env_vendor
       (constEnv ReadFailed
          (VendorResponse (Some (js "  " ++ value CARDBOARD ++ [10%N]))))
       [] (request None (js "image/png"))
     = VendorResponse (Some (js "  " ++ value CARDBOARD ++ [10%N]))
  /\ run (constEnv ReadFailed
            (VendorResponse (Some (js "  " ++ value CARDBOARD ++ [10%N]))))
       (classifyWasteImage Sample.host Sample.key None (js "image/png")) []
     = (Fulfilled {| category := value CARDBOARD; GeminiService.error := None |},
        [] ++ [EvGenerateContent (request None (js "image/png"))]).
Proof.
  split; [reflexivity | split; [reflexivity | split; [reflexivity | split;
    [reflexivity|]]]].
  apply (@classifyWasteImage_label_round_trip Sample.host Sample.key None
           (js "image/png")
           (constEnv ReadFailed
              (VendorResponse (Some (js "  " ++ value CARDBOARD ++ [10%N]))))
           [] CARDBOARD (js "  ") [10%N]); reflexivity.
Defined.

(** X5: for a response text, the result carries an error exactly when the
    trimmed text is none of the six labels and its lower-cased form holds
    none of the five keywords; as soon as a label or a keyword is found
    the result has no error. *)
Theorem classifyWasteImage_error_iff_unmatched
    (host : Host) (API_KEY b : option jsstring) (m : jsstring)
    (env : Env) (h : list Event) (text : jsstring) (r : ClassifyResult) :
  truthy API_KEY = true ->
  env_vendor env h (request b m) = VendorResponse (Some text) ->
  fst (run env (classifyWasteImage host API_KEY b m) h) = Fulfilled r ->
  (GeminiService.error r <> None
   <-> ~ In (trim text) Object_values_WasteCategory
       /\ forall kw,
            In kw [js "plastic"; js "paper"; js "cardboard"; js "glass"; js "metal"] ->
            includes (toLowerCase host (trim text)) kw = false).
Proof.
  intros K V R. rewrite classifyWasteImage_with_key in R by exact K.
  rewrite V, run_bind in R. cbn [run fst] in R. rewrite classifyText_run in R.
  injection R as <-. unfold normalize_spec. rewrite find_str_eqb.
  destruct (array_includes _ _) eqn:E.
  - apply array_includes_In in E. cbn [GeminiService.error].
    split; [congruence | intros [N _]; contradiction].
  - assert (NL : ~ In (trim text) Object_values_WasteCategory).
    { intros I. apply array_includes_In in I. congruence. }
    cbn [find keywords fst].
    destruct (includes _ (js "plastic")) eqn:E1;
      [split; [cbn; congruence | intros [_ W]; rewrite W in E1 by (simpl; tauto);
                                 discriminate]|].
    destruct (includes _ (js "paper")) eqn:E2;
      [split; [cbn; congruence | intros [_ W]; rewrite W in E2 by (simpl; tauto);
                                 discriminate]|].
    destruct (includes _ (js "cardboard")) eqn:E3;
      [split; [cbn; congruence | intros [_ W]; rewrite W in E3 by (simpl; tauto);
                                 discriminate]|].
    destruct (includes _ (js "glass")) eqn:E4;
      [split; [cbn; congruence | intros [_ W]; rewrite W in E4 by (simpl; tauto);
                                 discriminate]|].
    destruct (includes _ (js "metal")) eqn:E5;
      [split; [cbn; congruence | intros [_ W]; rewrite W in E5 by (simpl; tauto);
                                 discriminate]|].
    split; [|cbn; congruence]. intros _. split; [exact NL|].
    intros kw [<- | [<- | [<- | [<- | [<- | []]]]]]; assumption.
Qed.

Lemma classifyWasteImage_error_iff_unmatched_witness :
  truthy Sample.key = true
  /\ env_vendor (Sample.answering "Mostly METAL, some glass") []
       (request None (js "image/png"))
     = VendorResponse (Some (js "Mostly METAL, some glass"))
  /\ fst (run (Sample.answering "Mostly METAL, some glass")
            (classifyWasteImage Sample.host Sample.key None (js "image/png")) [])
     = Fulfilled {| category := js "Glass"; GeminiService.error := None |}
  /\ ((None : option jsstring) <> None
      <-> ~ In (trim (js "Mostly METAL, some glass")) Object_values_WasteCategory
          /\ forall kw,
               In kw [js "plastic"; js "paper"; js "cardboard"; js "glass"; js "metal"] ->
               includes (toLowerCase Sample.host (trim (js "Mostly METAL, some glass")))
                 kw = false).
Proof.
  split; [reflexivity | split; [reflexivity | split; [vm_compute; reflexivity|]]].
  apply (@classifyWasteImage_error_iff_unmatched Sample.host Sample.key None
           (js "image/png") (Sample.answering "Mostly METAL, some glass") []
           (js "Mostly METAL, some glass")
           {| category := js "Glass"; GeminiService.error := None |});
    [reflexivity | reflexivity | vm_compute; reflexivity].
Defined.

(** * What the state cells hold *)

Section WellFormed.

Variable host : Host.
Variable API_KEY : option jsstring.

Lemma Ending_cells (u : AppState -> AppState) (st : AppState) :
  Ending u ->
  (forall e, error st = Some e -> truthy (Some e) = true) ->
  (forall c, classificationResult (u st) = Some c ->
             In c Object_values_WasteCategory)
  /\ (forall e, error (u st) = Some e -> truthy (Some e) = true).
Proof.
  intros [ | e T | c I] W; cbn; split.
  - intros c E. injection E as <-. simpl. tauto.
  - intros e E. injection E as <-. reflexivity.
  - intros c E. injection E as <-. simpl. tauto.
  - intros e' E. injection E as <-. exact T.
  - intros c' E. injection E as <-. exact I.
  - exact W.
Qed.

Lemma step_wellFormed (s s' : Sys) (a : Action) :
  consistent host API_KEY s -> wellFormed s ->
  step host API_KEY s a = Some s' -> wellFormed s'.
Proof.
  intros (_ & P & _) (M & C & E) H.
  destruct a as [file | | | i o | i rd v | ]; cbn [step] in H.
  - unfold handleFileChange in H. destruct file as [file|].
    + destruct (isImage file); injection H as <-; unfold wellFormed; cbn;
        (split; [reflexivity | split; [discriminate|]]).
      * discriminate.
      * intros e X. injection X as <-. reflexivity.
    + injection H as <-; unfold wellFormed; cbn.
      split; [reflexivity | split; discriminate].
  - destruct (classifyButtonShown _); [|discriminate].
    unfold handleClassifyFrom in H.
    destruct (selectedFile (shown s)) as [f|].
    + destruct (mimeType (shown s)) as [[|c m]|];
        injection H as <-; unfold wellFormed; cbn;
        (split; [exact M | split]); try discriminate; try exact C.
      all: intros e X; injection X as <-; reflexivity.
    + injection H as <-; unfold wellFormed; cbn.
      split; [exact M | split; [exact C|]].
      intros e X. injection X as <-. reflexivity.
  - destruct (isSome _); [|discriminate]. injection H as <-; unfold wellFormed; cbn.
    split; [reflexivity | split; discriminate].
  - destruct (nth_error (readers s) i); [|discriminate].
    injection H as <-; unfold wellFormed; cbn.
    split; [exact M | split; [exact C | exact E]].
  - destruct (nth_error (inflight s) i) as [p|] eqn:N; [|discriminate].
    destruct (P p (nth_error_In _ _ N)) as (f & m & ->).
    pose proof (handleClassifyAsync_ending host API_KEY f m (constEnv rd v) [])
      as En.
    remember (fst (run (constEnv rd v) (handleClassifyAsync host API_KEY f m) []))
      as u eqn:Hu. clear Hu.
    destruct (Ending_effect (ui s) En) as (_ & E2 & E3 & _).
    destruct (Ending_cells (ui s) En E) as [C' E'].
    injection H as <-. unfold wellFormed. cbn [ui].
    rewrite E2, E3. split; [exact M | split; [exact C' | exact E']].
  - injection H as <-. unfold wellFormed. cbn [ui].
    split; [exact M | split; [exact C | exact E]].
Qed.

Lemma reachable_wellFormed (s : Sys) :
  reachable host API_KEY s -> wellFormed s.
Proof.
  apply (reachable_induction (host := host) (API_KEY := API_KEY)).
  - split; [reflexivity | split; discriminate].
  - intros s0 a s1 R W S.
    exact (step_wellFormed a (reachable_consistent R) W S).
Qed.

(** What a request that settles leaves in the state. *)
Lemma settle_outcome (s : Sys) (i : nat) (p : Prog (AppState -> AppState))
    (rd : ReadOutcome) (v : VendorOutcome) :
  reachable host API_KEY s -> nth_error (inflight s) i = Some p ->
  exists s',
    step host API_KEY s (ClassifySettles i rd v) = Some s'
    /\ inflight s' = remove_nth i (inflight s)
    /\ shown s' = shown s
    /\ isLoading (ui s') = false
    /\ selectedFile (ui s') = selectedFile (ui s)
    /\ ((exists e, errorShown (render API_KEY (ui s')) = Some e
                   /\ resultCardShown (render API_KEY (ui s')) = None)
        \/ (exists c, errorShown (render API_KEY (ui s')) = None
                      /\ resultCardShown (render API_KEY (ui s')) = Some c)).
Proof.
  intros R N.
  pose proof (reachable_consistent R) as (_ & P & _).
  pose proof (reachable_wellFormed R) as (_ & _ & E).
  destruct (P p (nth_error_In _ _ N)) as (f & m & ->).
  pose proof (handleClassifyAsync_ending host API_KEY f m (constEnv rd v) [])
    as En.
  destruct (Ending_effect (ui s) En) as (E1 & E2 & _).
  destruct (Ending_cells (ui s) En E) as [C' E'].
  eexists. split; [cbn [step]; rewrite N; reflexivity|].
  cbn [ui inflight shown].
  split; [reflexivity | split; [reflexivity | split; [exact E1 | split; [exact E2|]]]].
  unfold render. cbn [errorShown resultCardShown]. rewrite E1.
  set (st' := fst (run (constEnv rd v) (handleClassifyAsync host API_KEY f m) [])
                (ui s)) in *.
  destruct (error st') as [e|] eqn:Er.
  - left. exists e. rewrite (E' e eq_refl). split; [reflexivity|].
    rewrite andb_false_r. reflexivity.
  - right. cbn [truthy negb]. rewrite !andb_true_r.
    destruct (classificationResult st') as [c|] eqn:Cr.
    + exists c. split; [reflexivity|].
      replace (truthy (Some c)) with true; [reflexivity|].
      pose proof (C' c eq_refl) as I. simpl in I.
      destruct I as [<- | [<- | [<- | [<- | [<- | [<- | []]]]]]]; reflexivity.
    + exfalso. clear - En Cr. subst st'.
      destruct En; cbn in Cr; discriminate.
Qed.

End WellFormed.

(** * What the component displays *)

(** X6: in every state the component can reach, the error banner shows
    the stored error whenever one is stored: the error cell never holds
    the empty string, which the banner would hide. *)
Theorem error_state_is_displayed
    (host : Host) (API_KEY : option jsstring) (s : Sys) :
  reachable host API_KEY s ->
  errorShown (render API_KEY (ui s)) = error (ui s).
Proof.
  intros R. destruct (reachable_wellFormed R) as (_ & _ & E).
  unfold render. cbn [errorShown].
  destruct (error (ui s)) as [e|] eqn:Er; [|reflexivity].
  rewrite (E e eq_refl). reflexivity.
Qed.

Lemma error_state_is_displayed_witness :
  reachable Sample.host Sample.key
    (Sample.after [FileChange (Some Sample.notes); Render])
  /\ errorShown (render Sample.key
                   (ui (Sample.after [FileChange (Some Sample.notes); Render])))
     = Some (js "Please upload a valid image file (PNG, JPG, GIF, WEBP, etc.).").
Proof.
  assert (R : reachable Sample.host Sample.key
                (Sample.after [FileChange (Some Sample.notes); Render])).
  { exists [FileChange (Some Sample.notes); Render]. reflexivity. }
  split; [exact R|].
  exact (error_state_is_displayed R).
Defined.

(** X7: the result card is only ever rendered for one of the six
    categories, so [ResultCard] always finds its case: the grey styling
    its variables start with is never what is displayed. *)
Theorem result_card_known_category
    (host : Host) (API_KEY : option jsstring) (s : Sys) (c : jsstring) :
  reachable host API_KEY s ->
  resultCardShown (render API_KEY (ui s)) = Some c ->
  In c Object_values_WasteCategory
  /\ bgColor (ResultCard c) <> js "bg-gray-200"
  /\ textColor (ResultCard c) <> js "text-gray-800"
  /\ heading (ResultCard c) = c.
Proof.
  intros R H. destruct (reachable_wellFormed R) as (_ & C & _).
  unfold render in H. cbn [resultCardShown] in H.
  destruct (_ && _ && _); [|discriminate].
  pose proof (C c H) as I. split; [exact I|].
  simpl in I.
  destruct I as [<- | [<- | [<- | [<- | [<- | [<- | []]]]]]];
    repeat split; vm_compute; discriminate.
Qed.

Lemma result_card_known_category_witness :
  reachable Sample.host Sample.key
    (Sample.after
       [FileChange (Some Sample.photo); Render; ClickClassify;
        ClassifySettles 0 (ReadLoaded Sample.dataURL)
          (VendorResponse (Some (js "scrap metal")));
        Render])
  /\ resultCardShown
       (render Sample.key
          (ui (Sample.after
                 [FileChange (Some Sample.photo); Render; ClickClassify;
                  ClassifySettles 0 (ReadLoaded Sample.dataURL)
                    (VendorResponse (Some (js "scrap metal")));
                  Render])))
     = Some (js "Metal")
  /\ In (js "Metal") Object_values_WasteCategory
  /\ bgColor (ResultCard (js "Metal")) <> js "bg-gray-200"
  /\ textColor (ResultCard (js "Metal")) <> js "text-gray-800"
  /\ heading (ResultCard (js "Metal")) = js "Metal".
Proof.
  assert (R : reachable Sample.host Sample.key
    (Sample.after
       [FileChange (Some Sample.photo); Render; ClickClassify;
        ClassifySettles 0 (ReadLoaded Sample.dataURL)
          (VendorResponse (Some (js "scrap metal")));
        Render])).
  { exists [FileChange (Some Sample.photo); Render; ClickClassify;
            ClassifySettles 0 (ReadLoaded Sample.dataURL)
              (VendorResponse (Some (js "scrap metal")));
            Render].
    vm_compute. reflexivity. }
  assert (C : resultCardShown
       (render Sample.key
          (ui (Sample.after
                 [FileChange (Some Sample.photo); Render; ClickClassify;
                  ClassifySettles 0 (ReadLoaded Sample.dataURL)
                    (VendorResponse (Some (js "scrap metal")));
                  Render])))
     = Some (js "Metal")) by (vm_compute; reflexivity).
  split; [exact R | split; [exact C|]].
  exact (@result_card_known_category Sample.host Sample.key _ (js "Metal") R C).
Defined.

(** X8: in every state the component can reach, the stored MIME type is
    the type of the selected file, and there is none when no file is
    selected. *)
Theorem stored_mime_type_matches_file
    (host : Host) (API_KEY : option jsstring) (s : Sys) :
  reachable host API_KEY s ->
  mimeType (ui s) = option_map file_type (selectedFile (ui s)).
Proof.
  intros R. exact (proj1 (reachable_wellFormed R)).
Qed.

Lemma stored_mime_type_matches_file_witness :
  reachable Sample.host Sample.key
    (Sample.after [FileChange (Some Sample.photo); Render; FileChange None])
  /\ mimeType
       (ui (Sample.after [FileChange (Some Sample.photo); Render; FileChange None]))
     = option_map file_type
         (selectedFile
            (ui (Sample.after
                   [FileChange (Some Sample.photo); Render; FileChange None]))).
Proof.
  assert (R : reachable Sample.host Sample.key
    (Sample.after [FileChange (Some Sample.photo); Render; FileChange None])).
  { exists [FileChange (Some Sample.photo); Render; FileChange None]. reflexivity. }
  split; [exact R|].
  exact (stored_mime_type_matches_file R).
Defined.

(** X9: a request in flight can always settle, whatever the reader and
    the vendor do; when it has settled and the page is rendered again, the
    spinner is gone and the page shows either the error banner or the
    result card, never both and never neither. *)
Theorem settled_shows_banner_or_card
    (host : Host) (API_KEY : option jsstring) (s : Sys) (i : nat)
    (p : Prog (AppState -> AppState)) (rd : ReadOutcome) (v : VendorOutcome) :
  reachable host API_KEY s -> nth_error (inflight s) i = Some p ->
  exists s',
    steps host API_KEY s [ClassifySettles i rd v; Render] = Some s'
    /\ spinnerShown (render API_KEY (shown s')) = false
    /\ ((exists e, errorShown (render API_KEY (shown s')) = Some e
                   /\ resultCardShown (render API_KEY (shown s')) = None)
        \/ (exists c, errorShown (render API_KEY (shown s')) = None
                      /\ resultCardShown (render API_KEY (shown s')) = Some c)).
Proof.
  intros R N.
  destruct (@settle_outcome host API_KEY s i p rd v R N)
    as (s1 & S & _ & _ & L & _ & D).
  eexists. split; [cbn [steps]; rewrite S; reflexivity|].
  cbn [shown]. split; [exact L | exact D].
Qed.

Lemma settled_shows_banner_or_card_witness :
  reachable Sample.host Sample.key
    (Sample.after [FileChange (Some Sample.photo); Render; ClickClassify])
  /\ nth_error
       (inflight (Sample.after [FileChange (Some Sample.photo); Render; ClickClassify]))
       0
     = Some (handleClassifyAsync Sample.host Sample.key Sample.photo (js "image/png"))
  /\ exists s',
       steps Sample.host Sample.key
         (Sample.after [FileChange (Some Sample.photo); Render; ClickClassify])
         [ClassifySettles 0 ReadFailed (VendorResponse None); Render] = Some s'
       /\ spinnerShown (render Sample.key (shown s')) = false
       /\ ((exists e, errorShown (render Sample.key (shown s')) = Some e
                      /\ resultCardShown (render Sample.key (shown s')) = None)
           \/ (exists c, errorShown (render Sample.key (shown s')) = None
                         /\ resultCardShown (render Sample.key (shown s')) = Some c)).
Proof.
  assert (R : reachable Sample.host Sample.key
    (Sample.after [FileChange (Some Sample.photo); Render; ClickClassify])).
  { exists [FileChange (Some Sample.photo); Render; ClickClassify]. reflexivity. }
  split; [exact R | split; [reflexivity|]].
  exact (@settled_shows_banner_or_card Sample.host Sample.key _ 0 _ ReadFailed
           (VendorResponse None) R eq_refl).
Defined.

(** * One classification attempt, end to end *)

Lemma split_comma_1_payload (header payload : jsstring) :
  ~ In comma header -> ~ In comma payload ->
  split_comma_1 (header ++ comma :: payload) = Some payload.
Proof.
  intros H P. unfold split_comma_1. rewrite afterComma_first by exact H.
  cbn [option_map]. rewrite upToComma_whole by exact P. reflexivity.
Qed.

Lemma steps_snoc (host : Host) (API_KEY : option jsstring)
    (l : list Action) (a : Action) (s0 s1 s2 : Sys) :
  steps host API_KEY s0 l = Some s1 -> step host API_KEY s1 a = Some s2 ->
  steps host API_KEY s0 (l ++ [a]) = Some s2.
Proof.
  revert s0; induction l as [|b l IH]; intros s0 H S; cbn [steps app] in *.
  - injection H as <-. rewrite S. reflexivity.
  - destruct (step host API_KEY s0 b) as [s|]; [|discriminate].
    exact (IH s H S).
Qed.

Lemma reachable_step (host : Host) (API_KEY : option jsstring)
    (s s' : Sys) (a : Action) :
  reachable host API_KEY s -> step host API_KEY s a = Some s' ->
  reachable host API_KEY s'.
Proof.
  intros [l H] S. exists (l ++ [a]). exact (@steps_snoc host API_KEY l a _ _ _ H S).
Qed.

(** X10: a click on Classify, in any state the component can reach,
    starts one more request, for the file that is selected on the page;
    with a key configured and the file read as a data URL (header, comma,
    payload), that request first reads the file and then sends the vendor
    exactly the payload with the MIME type of the file, the model name and
    the prompt. *)
Theorem attempt_sends_selected_image
    (host : Host) (API_KEY : option jsstring) (s s' : Sys) :
  reachable host API_KEY s -> truthy API_KEY = true ->
  step host API_KEY s ClickClassify = Some s' ->
  exists f,
    selectedFile (shown s) = Some f
    /\ inflight s'
       = inflight s ++ [handleClassifyAsync host API_KEY f (file_type f)]
    /\ forall env h header payload,
         env_read env h f = ReadLoaded (header ++ comma :: payload) ->
         ~ In comma header -> ~ In comma payload ->
         exists rest,
           trace env (handleClassifyAsync host API_KEY f (file_type f)) h
           = EvReadAsDataURL f
             :: EvGenerateContent
                  {| req_model := js "gemini-2.5-flash-preview-04-17";
                     req_mimeType := file_type f;
                     req_data := Some payload;
                     req_text := WASTE_CLASSIFICATION_PROMPT |}
             :: rest.
Proof.
  intros R K S.
  destruct (shown_was_current R) as (s0 & R0 & E0).
  destruct (reachable_consistent R0) as (_ & _ & F). rewrite E0 in F.
  cbn [step] in S. unfold render in S; cbn [classifyButtonShown] in S.
  destruct (selectedFile (shown s)) as [f|] eqn:SF; [|discriminate].
  destruct (isLoading (shown s)); [discriminate|]. cbn [isSome negb andb] in S.
  destruct (F f eq_refl) as [I M].
  destruct (isImage_type_nonempty f I) as (c & m & T).
  unfold handleClassifyFrom in S. rewrite SF, M, T in S. injection S as <-.
  exists f. split; [reflexivity|]. split; [cbn; rewrite T; reflexivity|].
  intros env h header payload Rd H P.
  unfold handleClassifyAsync, imageToBase64. cbn [bind trace]. rewrite Rd.
  cbn [bind]. rewrite trace_bind.
  rewrite (split_comma_1_payload _ _ H P).
  unfold classifyWasteImage at 1. rewrite K. cbn [negb trace app].
  eexists. reflexivity.
Qed.

Lemma attempt_sends_selected_image_witness :
  reachable Sample.host Sample.key
    (Sample.after [FileChange (Some Sample.photo); Render])
  /\ truthy Sample.key = true
  /\ step Sample.host Sample.key
       (Sample.after [FileChange (Some Sample.photo); Render]) ClickClassify
     = Some (Sample.after [FileChange (Some Sample.photo); Render; ClickClassify])
  /\ exists f,
       selectedFile (shown (Sample.after [FileChange (Some Sample.photo); Render]))
       = Some f
       /\ inflight (Sample.after [FileChange (Some Sample.photo); Render; ClickClassify])
          = inflight (Sample.after [FileChange (Some Sample.photo); Render])
            ++ [handleClassifyAsync Sample.host Sample.key f (file_type f)]
       /\ forall env h header payload,
            env_read env h f = ReadLoaded (header ++ comma :: payload) ->
            ~ In comma header -> ~ In comma payload ->
            exists rest,
              trace env (handleClassifyAsync Sample.host Sample.key f (file_type f)) h
              = EvReadAsDataURL f
                :: EvGenerateContent
                     {| req_model := js "gemini-2.5-flash-preview-04-17";
                        req_mimeType := file_type f;
                        req_data := Some payload;
                        req_text := WASTE_CLASSIFICATION_PROMPT |}
                :: rest.
Proof.
  assert (R : reachable Sample.host Sample.key
                (Sample.after [FileChange (Some Sample.photo); Render])).
  { exists [FileChange (Some Sample.photo); Render]. reflexivity. }
  split; [exact R | split; [reflexivity | split; [reflexivity|]]].
  exact (@attempt_sends_selected_image Sample.host Sample.key _ _ R eq_refl eq_refl).
Defined.

(** X11: an attempt that runs without a configured key (undefined or
    empty) and whose file is read ends without a call to the vendor: the
    read is its only event, the stored error is "API Key not configured.",
    which the banner shows, no result card is shown, and loading is over. *)
Theorem attempt_without_key
    (host : Host) (API_KEY : option jsstring) (f : File) (m d : jsstring)
    (env : Env) (h : list Event) (st : AppState) :
  truthy API_KEY = false ->
  env_read env h f = ReadLoaded d ->
  trace env (handleClassifyAsync host API_KEY f m) h = [EvReadAsDataURL f]
  /\ errorShown
       (render API_KEY (fst (run env (handleClassifyAsync host API_KEY f m) h) st))
     = Some (js "API Key not configured.")
  /\ resultCardShown
       (render API_KEY (fst (run env (handleClassifyAsync host API_KEY f m) h) st))
     = None
  /\ isLoading (fst (run env (handleClassifyAsync host API_KEY f m) h) st) = false.
Proof.
  intros K Rd.
  unfold handleClassifyAsync, imageToBase64, classifyWasteImage, render.
  cbn [bind run trace]. rewrite Rd, K. cbn. repeat split.
Qed.

Lemma attempt_without_key_witness :
  truthy (Some (js "")) = false
  /\ env_read (Sample.answering "Plastic") [] Sample.photo = ReadLoaded Sample.dataURL
  /\ trace (Sample.answering "Plastic")
       (handleClassifyAsync Sample.host (Some (js "")) Sample.photo (js "image/png")) []
     = [EvReadAsDataURL Sample.photo]
  /\ errorShown
       (render (Some (js ""))
          (fst (run (Sample.answering "Plastic")
                  (handleClassifyAsync Sample.host (Some (js "")) Sample.photo
                     (js "image/png"))
                  []) initialState))
     = Some (js "API Key not configured.")
  /\ resultCardShown
       (render (Some (js ""))
          (fst (run (Sample.answering "Plastic")
                  (handleClassifyAsync Sample.host (Some (js "")) Sample.photo
                     (js "image/png"))
                  []) initialState))
     = None
  /\ isLoading
       (fst (run (Sample.answering "Plastic")
               (handleClassifyAsync Sample.host (Some (js "")) Sample.photo
                  (js "image/png"))
               []) initialState) = false.
Proof.
  split; [reflexivity | split; [reflexivity|]].
  exact (@attempt_without_key Sample.host (Some (js "")) Sample.photo (js "image/png")
           Sample.dataURL (Sample.answering "Plastic") [] initialState
           eq_refl eq_refl).
Defined.

(** X12: when the file cannot be read, the attempt ends through the
    [catch] of [handleClassify]: the vendor is not called, the banner
    shows the fixed message, no result card is shown, loading is over. *)
Theorem attempt_read_failure
    (host : Host) (API_KEY : option jsstring) (f : File) (m : jsstring)
    (env : Env) (h : list Event) (st : AppState) :
  env_read env h f = ReadFailed ->
  trace env (handleClassifyAsync host API_KEY f m) h
  = [EvReadAsDataURL f; EvConsoleError (js "Classification process error:")]
  /\ errorShown
       (render API_KEY (fst (run env (handleClassifyAsync host API_KEY f m) h) st))
     = Some (js "An unexpected error occurred during classification.")
  /\ resultCardShown
       (render API_KEY (fst (run env (handleClassifyAsync host API_KEY f m) h) st))
     = None
  /\ isLoading (fst (run env (handleClassifyAsync host API_KEY f m) h) st) = false.
Proof.
  intros Rd. unfold handleClassifyAsync, imageToBase64, render.
  cbn [bind run trace]. rewrite Rd. cbn. repeat split.
Qed.

Lemma attempt_read_failure_witness :
  env_read (constEnv ReadFailed (VendorResponse (Some (js "Glass")))) [] Sample.photo
  = ReadFailed
  /\ trace (constEnv ReadFailed (VendorResponse (Some (js "Glass"))))
       (handleClassifyAsync Sample.host Sample.key Sample.photo (js "image/png")) []
     = [EvReadAsDataURL Sample.photo;
        EvConsoleError (js "Classification process error:")]
  /\ errorShown
       (render Sample.key
          (fst (run (constEnv ReadFailed (VendorResponse (Some (js "Glass"))))
                  (handleClassifyAsync Sample.host Sample.key Sample.photo
                     (js "image/png")) []) initialState))
     = Some (js "An unexpected error occurred during classification.")
  /\ resultCardShown
       (render Sample.key
          (fst (run (constEnv ReadFailed (VendorResponse (Some (js "Glass"))))
                  (handleClassifyAsync Sample.host Sample.key Sample.photo
                     (js "image/png")) []) initialState))
     = None
  /\ isLoading
       (fst (run (constEnv ReadFailed (VendorResponse (Some (js "Glass"))))
               (handleClassifyAsync Sample.host Sample.key Sample.photo
                  (js "image/png")) []) initialState) = false.
Proof.
  split; [reflexivity|].
  exact (@attempt_read_failure Sample.host Sample.key Sample.photo (js "image/png")
           (constEnv ReadFailed (VendorResponse (Some (js "Glass")))) []
           initialState eq_refl).
Defined.

(** X13: when the vendor call throws an [Error] with a non-empty message,
    the banner shows that message, or "Invalid API Key. Please check your
    configuration." when the message mentions "API key not valid"; the
    stored result is Unknown and no result card is shown. *)
Theorem attempt_vendor_error_displayed
    (host : Host) (API_KEY : option jsstring) (f : File) (m d msg : jsstring)
    (env : Env) (h : list Event) (st : AppState) :
  truthy API_KEY = true ->
  env_read env h f = ReadLoaded d ->
  env_vendor env (h ++ [EvReadAsDataURL f]) (request (split_comma_1 d) m)
  = VendorThrows (ThrownError (MsgString msg)) ->
  msg <> [] ->
  errorShown
    (render API_KEY (fst (run env (handleClassifyAsync host API_KEY f m) h) st))
  = Some (if includes msg (js "API key not valid")
          then js "Invalid API Key. Please check your configuration."
          else msg)
  /\ resultCardShown
       (render API_KEY (fst (run env (handleClassifyAsync host API_KEY f m) h) st))
     = None
  /\ classificationResult
       (fst (run env (handleClassifyAsync host API_KEY f m) h) st)
     = Some (js "Unknown")
  /\ isLoading (fst (run env (handleClassifyAsync host API_KEY f m) h) st) = false.
Proof.
  intros K Rd V N.
  unfold handleClassifyAsync, imageToBase64. cbn [bind run]. rewrite Rd.
  cbn [bind]. rewrite run_bind.
  rewrite classifyWasteImage_with_key by exact K. rewrite V.
  cbn [classifyCatch run fst failed]. unfold invalidKeyCheck.
  destruct (includes msg (js "API key not valid")).
  - cbn. repeat split.
  - destruct msg as [|c msg]; [congruence|]. cbn. repeat split.
Qed.

Lemma attempt_vendor_error_displayed_witness :
  truthy Sample.key = true
  /\ env_read (Sample.throwing (ThrownError (MsgString (js "503 overloaded")))) []
       Sample.photo = ReadLoaded Sample.dataURL
  /\ env_vendor (Sample.throwing (ThrownError (MsgString (js "503 overloaded"))))
       ([] ++ [EvReadAsDataURL Sample.photo])
       (request (split_comma_1 Sample.dataURL) (js "image/png"))
     = VendorThrows (ThrownError (MsgString (js "503 overloaded")))
  /\ js "503 overloaded" <> []
  /\ errorShown
       (render Sample.key
          (fst (run (Sample.throwing (ThrownError (MsgString (js "503 overloaded"))))
                  (handleClassifyAsync Sample.host Sample.key Sample.photo
                     (js "image/png")) []) initialState))
     = Some (if includes (js "503 overloaded") (js "API key not valid")
             then js "Invalid API Key. Please check your configuration."
             else js "503 overloaded").
Proof.
  assert (N : js "503 overloaded" <> []) by (vm_compute; discriminate).
  split; [reflexivity | split; [reflexivity | split; [reflexivity | split;
    [exact N|]]]].
  exact (proj1 (@attempt_vendor_error_displayed Sample.host Sample.key Sample.photo
                  (js "image/png") Sample.dataURL (js "503 overloaded")
                  (Sample.throwing (ThrownError (MsgString (js "503 overloaded"))))
                  [] initialState eq_refl eq_refl eq_refl N)).
Defined.

(** X14: when the vendor answers one of the six category names, with any
    white space around it, and no error has been stored meanwhile, the
    page shows the result card of that category and no banner. *)
Theorem attempt_label_displayed
    (host : Host) (API_KEY : option jsstring) (f : File) (m d l r : jsstring)
    (c : WasteCategory) (env : Env) (h : list Event) (st : AppState) :
  truthy API_KEY = true ->
  env_read env h f = ReadLoaded d ->
  forallb isWhiteSpace l = true -> forallb isWhiteSpace r = true ->
  env_vendor env (h ++ [EvReadAsDataURL f]) (request (split_comma_1 d) m)
  = VendorResponse (Some (l ++ value c ++ r)) ->
  error st = None ->
  resultCardShown
    (render API_KEY (fst (run env (handleClassifyAsync host API_KEY f m) h) st))
  = Some (value c)
  /\ errorShown
       (render API_KEY (fst (run env (handleClassifyAsync host API_KEY f m) h) st))
     = None
  /\ isLoading (fst (run env (handleClassifyAsync host API_KEY f m) h) st) = false.
Proof.
  intros K Rd Hl Hr V E.
  unfold handleClassifyAsync, imageToBase64. cbn [bind run]. rewrite Rd.
  cbn [bind]. rewrite run_bind.
  rewrite classifyWasteImage_with_key by exact K. rewrite V.
  rewrite run_bind. cbn [run fst]. rewrite classifyText_run.
  unfold normalize_spec. rewrite trim_padding by assumption.
  rewrite trim_label, find_str_eqb.
  replace (array_includes Object_values_WasteCategory (value c)) with true
    by (destruct c; reflexivity).
  cbn [GeminiService.error category truthy run fst].
  unfold render. cbn. rewrite E.
  destruct c; repeat split.
Qed.

Lemma attempt_label_displayed_witness :
  truthy Sample.key = true
  /\ env_read (constEnv (ReadLoaded Sample.dataURL)
                 (VendorResponse (Some ([] ++ value GLASS ++ [10%N])))) []
       Sample.photo = ReadLoaded Sample.dataURL
  /\ forallb isWhiteSpace [] = true
  /\ forallb isWhiteSpace [10%N] = true
  /\ env_vendor (constEnv (ReadLoaded Sample.dataURL)
                   (VendorResponse (Some ([] ++ value GLASS ++ [10%N]))))
       ([] ++ [EvReadAsDataURL Sample.photo])
       (request (split_comma_1 Sample.dataURL) (js "image/png"))
     = VendorResponse (Some ([] ++ value GLASS ++ [10%N]))
  /\ error initialState = None
  /\ resultCardShown
       (render Sample.key
          (fst (run (constEnv (ReadLoaded Sample.dataURL)
                       (VendorResponse (Some ([] ++ value GLASS ++ [10%N]))))
                  (handleClassifyAsync Sample.host Sample.key Sample.photo
                     (js "image/png")) []) initialState))
     = Some (value GLASS).
Proof.
  split; [reflexivity | split; [reflexivity | split; [reflexivity | split;
    [reflexivity | split; [reflexivity | split; [reflexivity|]]]]]].
  exact (proj1 (@attempt_label_displayed Sample.host Sample.key Sample.photo
                  (js "image/png") Sample.dataURL [] [10%N] GLASS
                  (constEnv (ReadLoaded Sample.dataURL)
                     (VendorResponse (Some ([] ++ value GLASS ++ [10%N]))))
                  [] initialState eq_refl eq_refl eq_refl eq_refl eq_refl eq_refl)).
Defined.

(** * Changing or removing the selection *)

(** X15: removing the image puts every cell but the loading flag back to
    its initial value and leaves a request in flight where it is: the
    request is not cancelled, and when it settles its banner or result
    card is displayed although no file is selected any more. *)
Theorem remove_image_keeps_request
    (host : Host) (API_KEY : option jsstring) (s s' : Sys)
    (rd : ReadOutcome) (v : VendorOutcome) :
  reachable host API_KEY s ->
  step host API_KEY s ClickRemoveImage = Some s' ->
  ui s' = setIsLoading (isLoading (ui s)) initialState
  /\ inflight s' = inflight s
  /\ (isLoading (ui s) = true ->
      exists s'',
        step host API_KEY s' (ClassifySettles 0 rd v) = Some s''
        /\ selectedFile (ui s'') = None
        /\ ((exists e, errorShown (render API_KEY (ui s'')) = Some e)
            \/ (exists c, resultCardShown (render API_KEY (ui s'')) = Some c))).
Proof.
  intros R S. pose proof (@reachable_step host API_KEY s s' _ R S) as R'.
  destruct (reachable_consistent R) as (L & _ & _).
  cbn [step] in S. destruct (isSome _); [|discriminate]. injection S as <-.
  split; [reflexivity | split; [reflexivity|]].
  intros IL. specialize (L IL).
  assert (N : exists p, nth_error (inflight s) 0 = Some p).
  { destruct (inflight s) as [|p tl]; [congruence | exists p; reflexivity]. }
  destruct N as [p N].
  destruct (@settle_outcome host API_KEY _ 0 p rd v R' N)
    as (s'' & S' & _ & _ & _ & SF & D).
  exists s''. split; [exact S' | split; [exact SF|]].
  destruct D as [(e & E & _) | (c & _ & C)]; eauto.
Qed.

Lemma remove_image_keeps_request_witness :
  reachable Sample.host Sample.key
    (Sample.after
       [FileChange (Some Sample.photo);
        PreviewLoadEnd 0 (ReadLoaded Sample.dataURL); Render; ClickClassify])
  /\ step Sample.host Sample.key
       (Sample.after
          [FileChange (Some Sample.photo);
           PreviewLoadEnd 0 (ReadLoaded Sample.dataURL); Render; ClickClassify])
       ClickRemoveImage
     = Some
         (Sample.after
            [FileChange (Some Sample.photo);
             PreviewLoadEnd 0 (ReadLoaded Sample.dataURL); Render; ClickClassify;
             ClickRemoveImage])
  /\ ui (Sample.after
           [FileChange (Some Sample.photo);
            PreviewLoadEnd 0 (ReadLoaded Sample.dataURL); Render; ClickClassify;
            ClickRemoveImage])
     = setIsLoading true initialState
  /\ exists s'',
       step Sample.host Sample.key
         (Sample.after
            [FileChange (Some Sample.photo);
             PreviewLoadEnd 0 (ReadLoaded Sample.dataURL); Render; ClickClassify;
             ClickRemoveImage])
         (ClassifySettles 0 (ReadLoaded Sample.dataURL)
            (VendorResponse (Some (js "Paper")))) = Some s''
       /\ selectedFile (ui s'') = None
       /\ ((exists e, errorShown (render Sample.key (ui s'')) = Some e)
           \/ (exists c, resultCardShown (render Sample.key (ui s'')) = Some c)).
Proof.
  assert (R : reachable Sample.host Sample.key
    (Sample.after
       [FileChange (Some Sample.photo);
        PreviewLoadEnd 0 (ReadLoaded Sample.dataURL); Render; ClickClassify])).
  { exists [FileChange (Some Sample.photo);
            PreviewLoadEnd 0 (ReadLoaded Sample.dataURL); Render; ClickClassify].
    reflexivity. }
  split; [exact R | split; [reflexivity | split; [reflexivity|]]].
  exact (proj2 (proj2 (@remove_image_keeps_request Sample.host Sample.key _ _
                         (ReadLoaded Sample.dataURL)
                         (VendorResponse (Some (js "Paper"))) R eq_refl))
           eq_refl).
Defined.

(** X16: right after [handleFileChange], before anything else happens,
    the state it leaves renders no result card, and renders an error
    banner exactly when the chosen file is not an image. *)
Theorem file_change_clears_result
    (API_KEY : option jsstring) (file : option File) (st : AppState) :
  resultCardShown (render API_KEY (fst (handleFileChange file st))) = None
  /\ (errorShown (render API_KEY (fst (handleFileChange file st))) = None
      <-> forall f, file = Some f -> isImage f = true).
Proof.
  unfold handleFileChange, render. destruct file as [f|].
  - destruct (isImage f) eqn:I; cbn; (split; [reflexivity|]).
    + split; [intros _ g E; injection E as <-; exact I | reflexivity].
    + split; [discriminate|]. intros H. specialize (H f eq_refl). congruence.
  - cbn. split; [reflexivity|]. split; [intros _ g E; discriminate | reflexivity].
Qed.

(** * The result card *)

(** X17: the six categories are told apart by each of the three class
    names [ResultCard] chooses (no two categories share a background, a
    text colour or an icon), and the note "Could not confidently classify
    the item." is put under the heading exactly for Unknown. *)
Theorem ResultCard_tells_categories_apart :
  (forall c1 c2 : WasteCategory,
      bgColor (ResultCard (value c1)) = bgColor (ResultCard (value c2))
      \/ textColor (ResultCard (value c1)) = textColor (ResultCard (value c2))
      \/ iconClass (ResultCard (value c1)) = iconClass (ResultCard (value c2)) ->
      c1 = c2)
  /\ (forall category : jsstring,
         note (ResultCard category) <> None <-> category = js "Unknown").
Proof.
  split.
  - intros c1 c2 H.
    destruct c1, c2; try reflexivity; exfalso;
      destruct H as [H | [H | H]]; vm_compute in H; discriminate.
  - intros category. unfold ResultCard.
    destruct (if str_eqb category (value PLASTIC) then _ else _) as [[bg tx] ic].
    cbn [note].
    destruct (str_eqb category (value UNKNOWN)) eqn:E.
    + apply str_eqb_eq in E. split; [intros _; exact E | discriminate].
    + split; [congruence|]. intros ->. rewrite str_eqb_refl in E. discriminate.
Qed.

(** * The answers of the vendor that are not a text *)

(** X18: a response without a text does not make [classifyWasteImage]
    fail: reading [trim] of the missing text raises inside the [try], the
    [catch] block takes it, and the call resolves with Unknown and an
    error message, after the one request and one console error. *)
Theorem response_without_text_is_an_error
    (host : Host) (API_KEY b : option jsstring) (m : jsstring)
    (env : Env) (h : list Event) :
  truthy API_KEY = true ->
  env_vendor env h (request b m) = VendorResponse None ->
  exists msg,
    run env (classifyWasteImage host API_KEY b m) h
    = (Fulfilled {| category := js "Unknown"; GeminiService.error := Some msg |},
       h ++ [EvGenerateContent (request b m);
             EvConsoleError (js "Error classifying waste image:")])
    /\ (msg = typeErrorMessage host TrimOfUndefined
        \/ msg = js "Invalid API Key. Please check your configuration.").
Proof.
  intros K V. rewrite classifyWasteImage_with_key by exact K. rewrite V.
  cbn [classifyCatch run failed]. unfold invalidKeyCheck.
  rewrite <- app_assoc. cbn [app].
  destruct (includes _ _); eexists; (split; [reflexivity|]); auto.
Qed.

Lemma response_without_text_is_an_error_witness :
  truthy Sample.key = true
  /\ env_vendor (constEnv ReadFailed (VendorResponse None)) []
       (request None (js "image/png")) = VendorResponse None
  /\ exists msg,
       run (constEnv ReadFailed (VendorResponse None))
         (classifyWasteImage Sample.host Sample.key None (js "image/png")) []
       = (Fulfilled {| category := js "Unknown"; GeminiService.error := Some msg |},
          [] ++ [EvGenerateContent (request None (js "image/png"));
                 EvConsoleError (js "Error classifying waste image:")])
       /\ (msg = typeErrorMessage Sample.host TrimOfUndefined
           \/ msg = js "Invalid API Key. Please check your configuration.").
Proof.
  split; [reflexivity | split; [reflexivity|]].
  exact (@response_without_text_is_an_error Sample.host Sample.key None
           (js "image/png") (constEnv ReadFailed (VendorResponse None)) []
           eq_refl eq_refl).
Defined.

(** * Witnesses of earlier facts *)

Lemma thrown_with_string_message_is_caught_witness :
  truthy Sample.key = true
  /\ env_vendor (Sample.throwing (ThrownObject (Some (MsgString (js "quota")))))
       [] (request None (js "image/png"))
     = VendorThrows (ThrownObject (Some (MsgString (js "quota"))))
  /\ ThrownObject (Some (MsgString (js "quota"))) <> ThrownError MsgNoIncludes
  /\ ThrownObject (Some (MsgString (js "quota"))) <> ThrownObject (Some MsgNoIncludes)
  /\ exists msg,
       fst (run (Sample.throwing (ThrownObject (Some (MsgString (js "quota")))))
              (classifyWasteImage Sample.host Sample.key None (js "image/png")) [])
       = Fulfilled {| category := js "Unknown"; GeminiService.error := Some msg |}.
Proof.
  assert (N1 : ThrownObject (Some (MsgString (js "quota"))) <> ThrownError MsgNoIncludes)
    by discriminate.
  assert (N2 : ThrownObject (Some (MsgString (js "quota")))
               <> ThrownObject (Some MsgNoIncludes)) by discriminate.
  split; [reflexivity | split; [reflexivity | split; [exact N1 | split; [exact N2|]]]].
  exact (@thrown_with_string_message_is_caught Sample.host Sample.key None
           (js "image/png")
           (Sample.throwing (ThrownObject (Some (MsgString (js "quota"))))) []
           _ eq_refl eq_refl N1 N2).
Defined.

Lemma click_starts_attempt_witness :
  reachable Sample.host Sample.key
    (Sample.after [FileChange (Some Sample.photo); Render])
  /\ classifyButtonShown
       (render Sample.key
          (ui (Sample.after [FileChange (Some Sample.photo); Render]))) = true
  /\ exists st p,
       handleClassify Sample.host Sample.key
         (ui (Sample.after [FileChange (Some Sample.photo); Render])) = (st, Some p).
Proof.
  assert (R : reachable Sample.host Sample.key
                (Sample.after [FileChange (Some Sample.photo); Render])).
  { exists [FileChange (Some Sample.photo); Render]. reflexivity. }
  split; [exact R | split; [reflexivity|]].
  exact (click_starts_attempt R eq_refl).
Defined.
